(** * Slide content placement engine (app/powerpoint/tools.py)

    A shallow embedding of the decision logic of [check_content_fit],
    [add_slide_from_blob_url] and [update_powerpoint_file], and the
    properties of it that the design document states.

    Python values are modelled as follows.
    - [int] is [Z] (unbounded, no wrap-around).
    - [str] is a list of Unicode code points ([N]); [len] is [length].
    - [None]-able values are [option].
    - An exception is a value of [exn]; code that may raise lives in
      [result].
    - [print] is a diagnostic appended to a log. *)

From Stdlib Require Import ZArith NArith List String Ascii DecimalString Lia Bool.
From stdpp Require Import base list.
Import ListNotations.

Local Open Scope Z_scope.

(** ** Python strings *)

Module Py.

Definition char := N.
Definition str := list char.

(** An ASCII literal of the source, as code points. *)
Definition lit (s : string) : str := List.map N_of_ascii (list_ascii_of_string s).
Arguments lit s%_string.

(** [len(s)] *)
Definition len {A} (l : list A) : Z := Z.of_nat (length l).

(** Characters for which CPython's [str.isspace] holds; these are the ones
    [str.strip()] and [str.split()] treat as white space. *)
Definition isspace (c : char) : bool :=
  ((9 <=? c) && (c <=? 13) || (28 <=? c) && (c <=? 32)
   || (c =? 133) || (c =? 160) || (c =? 5760)
   || (8192 <=? c) && (c <=? 8202)
   || (c =? 8232) || (c =? 8233) || (c =? 8239) || (c =? 8287)
   || (c =? 12288))%N.

Fixpoint lstrip (s : str) : str :=
  match s with
  | [] => []
  | c :: r => if isspace c then lstrip r else s
  end.

Definition rstrip (s : str) : str := rev (lstrip (rev s)).

(** [s.strip()] *)
Definition strip (s : str) : str := rstrip (lstrip s).

(** [s.split(sep)] for a one-character separator: never the empty list. *)
Fixpoint split (sep : char) (s : str) : list str :=
  match s with
  | [] => [[]]
  | c :: r =>
      if (c =? sep)%N then [] :: split sep r
      else match split sep r with
           | w :: ws => (c :: w) :: ws
           | [] => [[c]]
           end
  end.

(** [s.split()]: the maximal runs of non-space characters. [cur] is the
    run being read, reversed. *)
Fixpoint split_ws_from (cur : str) (s : str) : list str :=
  match s with
  | [] => match cur with [] => [] | _ => [rev cur] end
  | c :: r =>
      if isspace c
      then match cur with
           | [] => split_ws_from [] r
           | _ => rev cur :: split_ws_from [] r
           end
      else split_ws_from (c :: cur) r
  end.

Definition split_ws (s : str) : list str := split_ws_from [] s.

(** [s.startswith(p)] *)
Fixpoint startswith (s p : str) : bool :=
  match p, s with
  | [], _ => true
  | _ :: _, [] => false
  | a :: p', b :: s' => (a =? b)%N && startswith s' p'
  end.

(** [needle in hay] *)
Fixpoint contains (needle hay : str) : bool :=
  startswith hay needle
  || match hay with
     | [] => false
     | _ :: r => contains needle r
     end.

(** [sep.join(parts)] *)
Fixpoint join (sep : str) (parts : list str) : str :=
  match parts with
  | [] => []
  | [p] => p
  | p :: ps => p ++ sep ++ join sep ps
  end.

(** [str(n)] for an [int], as an f-string interpolates it. *)
Definition str_of_int (n : Z) : str := lit (NilZero.string_of_int (Z.to_int n)).

Definition str_eqb (a b : str) : bool := bool_decide (a = b).

Definition newline : char := 10%N.
Definition hyphen : char := 45%N.
Definition period : char := 46%N.
Definition bullet : char := 8226%N.

(** The parts of the Unicode character database that the code consults
    through [str.isdigit], [str.upper] and [str.lower]. [upper] maps each
    character on its own (to one or more characters); [lower] depends on
    the context of a character, so it is taken on whole strings. The three
    facts recorded are the only ones the development uses. *)
Class Unicode := {
  isdigit : char -> bool;
  upper_char : char -> str;
  lower : str -> str;
  isdigit_hyphen : isdigit hyphen = false;
  isdigit_period : isdigit period = false;
  isdigit_bullet : isdigit bullet = false
}.

(** [s.upper()] *)
Definition upper `{Unicode} (s : str) : str := flat_map upper_char s.

(** The database restricted to ASCII: digits 0-9, letters a-z and A-Z. *)
Definition ascii_isdigit (c : char) : bool := ((48 <=? c) && (c <=? 57))%N.
Definition ascii_upper_char (c : char) : str :=
  if ((97 <=? c) && (c <=? 122))%N then [(c - 32)%N] else [c].
Definition ascii_lower_char (c : char) : char :=
  if ((65 <=? c) && (c <=? 90))%N then (c + 32)%N else c.

Definition ascii_tables : Unicode :=
  {| isdigit := ascii_isdigit;
     upper_char := ascii_upper_char;
     lower := List.map ascii_lower_char;
     isdigit_hyphen := eq_refl;
     isdigit_period := eq_refl;
     isdigit_bullet := eq_refl |}.

End Py.

(** ** Content fit analyzer: [check_content_fit] *)

Module Fit.
Import Py.

Record font_sizes := {
  title : option Z;
  subtitle : option Z;
  body : option Z
}.

(** The dictionary [check_content_fit] returns. *)
Record FitAssessment := {
  fits : bool;
  warnings : list str;
  suggested_font_size : font_sizes;
  content_complexity : Z
}.

Definition no_sizes : font_sizes :=
  {| title := None; subtitle := None; body := None |}.

Definition set_title (v : Z) (f : font_sizes) : font_sizes :=
  {| title := Some v; subtitle := subtitle f; body := body f |}.
Definition set_subtitle (v : Z) (f : font_sizes) : font_sizes :=
  {| title := title f; subtitle := Some v; body := body f |}.
Definition set_body (v : Z) (f : font_sizes) : font_sizes :=
  {| title := title f; subtitle := subtitle f; body := Some v |}.

(** The locals the function updates as it goes: the [warnings] list, the
    [complexity_score] and [result['suggested_font_size']]. *)
Record locals := {
  warnings_so_far : list str;
  complexity_score : Z;
  sizes : font_sizes
}.

Definition warn (msg : str) (a : locals) : locals :=
  {| warnings_so_far := warnings_so_far a ++ [msg];
     complexity_score := complexity_score a;
     sizes := sizes a |}.
Definition add_score (d : Z) (a : locals) : locals :=
  {| warnings_so_far := warnings_so_far a;
     complexity_score := complexity_score a + d;
     sizes := sizes a |}.
Definition suggest (f : font_sizes -> font_sizes) (a : locals) : locals :=
  {| warnings_so_far := warnings_so_far a;
     complexity_score := complexity_score a;
     sizes := f (sizes a) |}.

(** The counters and flags of the bullet-counting loop. *)
Record scan := {
  left_bullets : Z;
  right_bullets : Z;
  in_left_column : bool;
  in_right_column : bool
}.

Definition scan0 : scan :=
  {| left_bullets := 0; right_bullets := 0;
     in_left_column := false; in_right_column := false |}.

(** The two column flags are not both set. *)
Definition exclusive (s : scan) : Prop :=
  in_left_column s && in_right_column s = false.

(** [b] has the warnings of [a], and possibly more after them. *)
Definition extends (a b : locals) : Prop :=
  exists ws, warnings_so_far b = warnings_so_far a ++ ws.

Section WithUnicode.
Context `{U : Unicode}.

Definition has_left_marker (line : str) : bool :=
  contains (lit "LEFT COLUMN:") (upper line).
Definition has_right_marker (line : str) : bool :=
  contains (lit "RIGHT COLUMN:") (upper line).

Definition is_bullet (line_trimmed : str) : bool :=
  startswith line_trimmed [hyphen] || startswith line_trimmed [bullet].

Definition is_numbered (line_trimmed : str) : bool :=
  (len line_trimmed >? 2)
  && match line_trimmed with
     | c0 :: c1 :: _ => isdigit c0 && (c1 =? period)%N
     | _ => false
     end.

(** One iteration of [for line in lines]. *)
Definition scan_line (s : scan) (line : str) : scan :=
  let line_trimmed := strip line in
  if has_left_marker line then
    {| left_bullets := left_bullets s; right_bullets := right_bullets s;
       in_left_column := true; in_right_column := false |}
  else if has_right_marker line then
    {| left_bullets := left_bullets s; right_bullets := right_bullets s;
       in_left_column := false; in_right_column := true |}
  else if is_bullet line_trimmed || is_numbered line_trimmed then
    if in_right_column s then
      {| left_bullets := left_bullets s; right_bullets := right_bullets s + 1;
         in_left_column := in_left_column s; in_right_column := in_right_column s |}
    else
      {| left_bullets := left_bullets s + 1; right_bullets := right_bullets s;
         in_left_column := in_left_column s; in_right_column := in_right_column s |}
  else s.

Definition count_bullets (lines : list str) : scan := fold_left scan_line lines scan0.

(** A line the loop counts: no marker, and a bullet or a numbered item
    once trimmed. *)
Definition counted (line : str) : bool :=
  negb (has_left_marker line) && negb (has_right_marker line)
  && (is_bullet (strip line) || is_numbered (strip line)).

(** "Check title length" *)
Definition check_title (lines : list str) (max_title_words : Z) (a : locals) : locals :=
  match lines with
  | [] => a
  | l0 :: _ =>
      let title_words := len (split_ws l0) in
      if title_words >? max_title_words then
        let a := warn (lit "Title contains " ++ str_of_int title_words
                       ++ lit " words, which exceeds the recommended maximum of "
                       ++ str_of_int max_title_words) a in
        let a := add_score (Z.min 25 ((title_words - max_title_words) * 5)) a in
        if title_words >? max_title_words + 5 then suggest (set_title 28) a
        else if title_words >? max_title_words then suggest (set_title 32) a
        else a
      else a
  end.

(** "Check for very long lines" *)
Definition check_long_lines (lines : list str) (max_chars_per_line : Z) (a : locals) : locals :=
  let long_lines := List.filter (fun line => len line >? max_chars_per_line) lines in
  match long_lines with
  | [] => a
  | _ :: _ =>
      let a := warn (lit "Found " ++ str_of_int (len long_lines)
                     ++ lit " lines that exceed " ++ str_of_int max_chars_per_line
                     ++ lit " characters") a in
      let a := add_score (Z.min 25 (len long_lines * 5)) a in
      if len long_lines >? 2 then suggest (set_body 16) a else a
  end.

(** "Check total number of bullets" *)
Definition check_total_bullets (total_bullets max_bullets_per_column : Z) (a : locals) : locals :=
  if total_bullets >? max_bullets_per_column * 2 then
    let a := warn (lit "Total of " ++ str_of_int total_bullets
                   ++ lit " bullet points may be too many for one slide") a in
    let a := add_score (Z.min 25 ((total_bullets - max_bullets_per_column * 2) * 2)) a in
    if total_bullets >? max_bullets_per_column * 2 + 4 then suggest (set_body 14) a
    else if total_bullets >? max_bullets_per_column * 2 then suggest (set_body 16) a
    else a
  else a.

(** The branch under "Two columns were detected". *)
Definition check_two_columns (s : scan) (max_bullets_per_column : Z) (a : locals) : locals :=
  let a :=
    if left_bullets s >? max_bullets_per_column then
      add_score (Z.min 15 ((left_bullets s - max_bullets_per_column) * 2))
        (warn (lit "Left column has " ++ str_of_int (left_bullets s)
               ++ lit " bullet points (recommended: "
               ++ str_of_int max_bullets_per_column ++ lit ")") a)
    else a in
  let a :=
    if right_bullets s >? max_bullets_per_column then
      add_score (Z.min 15 ((right_bullets s - max_bullets_per_column) * 2))
        (warn (lit "Right column has " ++ str_of_int (right_bullets s)
               ++ lit " bullet points (recommended: "
               ++ str_of_int max_bullets_per_column ++ lit ")") a)
    else a in
  let max_column_bullets := Z.max (left_bullets s) (right_bullets s) in
  if max_column_bullets >? max_bullets_per_column + 4 then suggest (set_body 14) a
  else if max_column_bullets >? max_bullets_per_column then suggest (set_body 16) a
  else a.

(** The branch under "Single column with many bullets". *)
Definition check_single_column (total_bullets max_bullets_per_column : Z) (a : locals) : locals :=
  let a := warn (lit "Found " ++ str_of_int total_bullets
                 ++ lit " bullet points in a single column (recommended: "
                 ++ str_of_int max_bullets_per_column ++ lit ")") a in
  let a := add_score (Z.min 20 ((total_bullets - max_bullets_per_column) * 2)) a in
  if total_bullets >? max_bullets_per_column + 4 then suggest (set_body 14) a
  else if total_bullets >? max_bullets_per_column then suggest (set_body 16) a
  else a.

(** "Check per-column bullet count for two-column layouts", with its
    [elif] for a single column. *)
Definition check_columns (s : scan) (max_bullets_per_column : Z) (a : locals) : locals :=
  let total_bullets := left_bullets s + right_bullets s in
  if in_left_column s && in_right_column s then
    check_two_columns s max_bullets_per_column a
  else if total_bullets >? max_bullets_per_column then
    check_single_column total_bullets max_bullets_per_column a
  else a.

(** "Check total lines" *)
Definition check_total_lines (total_lines max_lines : Z) (a : locals) : locals :=
  if total_lines >? max_lines then
    let a := warn (lit "Content has " ++ str_of_int total_lines
                   ++ lit " lines, which may be too many for one slide (recommended: "
                   ++ str_of_int max_lines ++ lit ")") a in
    let a := add_score (Z.min 25 ((total_lines - max_lines) * 2)) a in
    if total_lines >? max_lines + 5 then suggest (set_subtitle 20) a else a
  else a.

(** The scoring of non-empty content, in the order of the source. *)
Definition score (lines : list str)
    (max_title_words max_lines max_bullets_per_column max_chars_per_line : Z) : locals :=
  let a := {| warnings_so_far := []; complexity_score := 0; sizes := no_sizes |} in
  let a := check_title lines max_title_words a in
  let a := check_long_lines lines max_chars_per_line a in
  let s := count_bullets lines in
  let a := check_total_bullets (left_bullets s + right_bullets s) max_bullets_per_column a in
  let a := check_columns s max_bullets_per_column a in
  check_total_lines (len lines) max_lines a.

Definition check_content_fit (content : str)
    (max_title_words max_lines max_bullets_per_column max_chars_per_line : Z)
    : FitAssessment :=
  let lines := split newline (strip content) in
  match strip content with
  | [] =>
      {| fits := true;
         warnings := [lit "Content is empty"];
         suggested_font_size := no_sizes;
         content_complexity := 0 |}
  | _ :: _ =>
      let a := score lines max_title_words max_lines max_bullets_per_column
                 max_chars_per_line in
      {| fits := match warnings_so_far a with [] => true | _ :: _ => false end;
         warnings := warnings_so_far a;
         suggested_font_size := sizes a;
         content_complexity := Z.min 100 (complexity_score a) |}
  end.

(** The call with the defaults of the signature. *)
Definition check_content_fit_default (content : str) : FitAssessment :=
  check_content_fit content 10 15 8 80.

End WithUnicode.

(** A check [f] with trigger [triggered]: when triggered it leaves a
    warning and raises the score; otherwise it changes nothing. *)
Definition fires (triggered : bool) (f : locals -> locals) : Prop :=
  forall a,
    if triggered
    then warnings_so_far (f a) <> [] /\ complexity_score a < complexity_score (f a)
    else f a = a.

End Fit.

(** ** Exceptions and diagnostics *)

Module Eff.
Import Py.

Inductive exn :=
| UnboundLocalError (name : str)   (* a local read before it is bound *)
| IndexError                       (* a sequence indexed out of range *)
| ValueError (msg : str)           (* raised by python-pptx on a value it refuses *)
| TransportError (msg : str).      (* raised by download, open or save *)

(** Each [print] of the modelled code, with the values it interpolates. *)
Inductive diag :=
| UsingSpecifiedLayout (name : str)
| WarnLayoutNotFound (name : str)
| AutoSelectedLayout (name : str)
| CaseInsensitiveMatch (requested found : str)
| UsingDefaultLayout (requested : str)
| ErrorAddingSlide (e : exn)
| WarnNoSlideIndex
| WarnInvalidSlideIndex (slide_index : Z)
| WarnMissingIdxOrText
| WarnNoPlaceholder (idx : Z)
| ErrorUpdating (e : exn).

Inductive result (A : Type) :=
| Ok (a : A)
| Raise (e : exn).
Arguments Ok {A} a.
Arguments Raise {A} e.

(** A computation prints diagnostics, then returns or raises. *)
Definition M (A : Type) : Type := list diag * result A.

Definition ret {A} (a : A) : M A := ([], Ok a).
Definition raise {A} (e : exn) : M A := ([], Raise e).
Definition print (d : diag) : M unit := ([d], Ok tt).

Definition bind {A B} (m : M A) (k : A -> M B) : M B :=
  match m with
  | (out, Ok a) => let (out', r) := k a in (out ++ out', r)
  | (out, Raise e) => (out, Raise e)
  end.

Notation "'let*' x ':=' m 'in' k" := (bind m (fun x => k))
  (at level 10, x name, m at level 100, k at level 200).

(** [for x in xs: acc = body(acc, x)], stopping at the first exception. *)
Fixpoint for_each {A S} (body : S -> A -> M S) (xs : list A) (acc : S) : M S :=
  match xs with
  | [] => ret acc
  | x :: r => let* acc' := body acc x in for_each body r acc'
  end.

(** [xs[i]] for a Python sequence: negative indices count from the end. *)
Definition getitem {A} (xs : list A) (i : Z) : M A :=
  let j := if i <? 0 then len xs + i else i in
  if j <? 0 then raise IndexError
  else match nth_error xs (Z.to_nat j) with
       | Some x => ret x
       | None => raise IndexError
       end.

End Eff.

(** ** The document model (what the code uses of python-pptx) *)

Module Pptx.
Import Py.

Record placeholder_format := {
  idx : Z;
  type : Z
}.

(** A shape that holds text. [placeholder] is [None] for a shape that is
    not a placeholder; reading [placeholder_format] of such a shape raises
    [ValueError]. [text] is what [shape.text] reads. [font_size] is the
    size carried by the runs of the text; assigning [text] makes new runs,
    which carry none. *)
Record shape := {
  name : str;
  placeholder : option placeholder_format;
  text : str;
  font_size : option Z
}.

Record slide_layout := {
  layout_name : str;
  placeholders : list shape
}.

Record slide_master := {
  slide_layouts : list slide_layout
}.

Record slide := {
  shapes : list shape;
  notes_text : option str
}.

Record presentation := {
  slide_masters : list slide_master;
  slides : list slide
}.

Definition vertical_tab : char := 11%N.

(** A text frame splits the string assigned to it into paragraphs at line
    feeds and into runs at vertical tabs, and writes every other control
    character of a run, the tab apart, as [_xHHHH_]. *)
Definition escaped (c : char) : bool := ((c <=? 8) || (12 <=? c) && (c <=? 31))%N.

Definition hex_digit (d : N) : char := (if d <? 10 then 48 + d else 55 + d)%N.

Definition stored_char (c : char) : str :=
  if escaped c
  then lit "_x00" ++ [hex_digit (c / 16); hex_digit (c mod 16)] ++ lit "_"
  else [c].

(** What [shape.text] reads once [s] has been assigned to it. *)
Definition stored (s : str) : str := flat_map stored_char s.

(** Whether the text read has a run: a stretch between line feeds and
    vertical tabs that is not empty. *)
Definition has_runs (s : str) : bool :=
  existsb (fun c => negb ((c =? newline) || (c =? vertical_tab))%N) s.

(** The strings a text frame takes: XML cannot hold U+FFFE, U+FFFF or a
    surrogate, and assigning a string with one of them raises. *)
Definition storable (s : str) : bool :=
  forallb (fun c => (c <? 55296) || (57344 <=? c) && (c <=? 65533)
                    || (65536 <=? c) && (c <=? 1114111))%N s.

(** [shape.text = s], for a storable [s] *)
Definition set_text (s : str) (sh : shape) : shape :=
  {| name := name sh; placeholder := placeholder sh; text := stored s; font_size := None |}.

(** [for paragraph in ...: for run in ...: run.font.size = Pt(size)], for
    a size the runs take (1 to 4000 points): without a run nothing is
    set. *)
Definition set_font_size (size : Z) (sh : shape) : shape :=
  if has_runs (text sh)
  then {| name := name sh; placeholder := placeholder sh; text := text sh;
          font_size := Some size |}
  else sh.

(** The name python-pptx gives the [k]-th placeholder it clones onto a
    new slide. It makes it from the type of the placeholder and the id of
    the new shape; the code here only copies it. *)
Class Cloning := {
  clone_name : nat -> shape -> str
}.

(** Date, footer and slide-number placeholders are not cloned. *)
Definition latent_placeholder_types : list Z := [13; 15; 16].

Definition cloneable (sh : shape) : bool :=
  match placeholder sh with
  | Some pf => negb (existsb (Z.eqb (type pf)) latent_placeholder_types)
  | None => false
  end.

Definition clone `{C : Cloning} (k : nat) (sh : shape) : shape :=
  {| name := clone_name k sh; placeholder := placeholder sh; text := [];
     font_size := None |}.

(** The slide [slides.add_slide(layout)] makes: a clone of each cloneable
    placeholder of the layout, empty, under its new name. *)
Definition new_slide_from `{C : Cloning} (l : slide_layout) : slide :=
  {| shapes := imap clone (List.filter cloneable (placeholders l)); notes_text := None |}.

Definition with_shapes (shs : list shape) (sl : slide) : slide :=
  {| shapes := shs; notes_text := notes_text sl |}.

Definition with_slides (sls : list slide) (prs : presentation) : presentation :=
  {| slide_masters := slide_masters prs; slides := sls |}.

(** [presentation.slide_layouts]: the layouts of the first master. *)
Definition first_master_layouts (prs : presentation) : Eff.M (list slide_layout) :=
  match slide_masters prs with
  | [] => Eff.raise Eff.IndexError
  | m :: _ => Eff.ret (slide_layouts m)
  end.

End Pptx.

(** ** Slide creation: [add_slide_from_blob_url] *)

Module AddSlide.
Import Py Eff Pptx Fit.

(** An entry of the [placeholders] list. The shape it refers to is the
    one at position [entry_shape] of the slide, so that writing through
    the entry changes the slide. *)
Record entry := {
  entry_shape : nat;
  entry_idx : Z;
  entry_type : Z;
  entry_name : str
}.

(** The locals of the column loop. [current_left] stands for
    [current_column == "left"]. *)
Record columns := {
  left_column_content : list str;
  right_column_content : list str;
  column_mode : bool;
  current_left : bool
}.

Definition columns0 : columns :=
  {| left_column_content := []; right_column_content := [];
     column_mode := false; current_left := true |}.

(** [if slide_type:] on an optional string *)
Definition truthy (s : option str) : bool :=
  match s with
  | Some (_ :: _) => true
  | _ => false
  end.

(** "Find all placeholders and their types" *)
Fixpoint find_placeholders (i : nat) (shs : list shape) : list entry :=
  match shs with
  | [] => []
  | sh :: r =>
      match placeholder sh with
      | Some pf =>
          {| entry_shape := i; entry_idx := idx pf; entry_type := type pf;
             entry_name := name sh |} :: find_placeholders (S i) r
      | None => find_placeholders (S i) r
      end
  end.

Definition title_placeholders (phs : list entry) : list entry :=
  List.filter (fun p => entry_type p =? 1) phs.
Definition subtitle_placeholders (phs : list entry) : list entry :=
  List.filter (fun p => entry_type p =? 2) phs.
Definition content_placeholder_types : list Z := [3; 7].
Definition content_placeholders (phs : list entry) : list entry :=
  List.filter (fun p => existsb (Z.eqb (entry_type p)) content_placeholder_types) phs.

(** A font hint is used only under [check_fit and hint is not None]. *)
Definition hint (check_fit : bool) (v : option Z) : option Z :=
  if check_fit then v else None.

Definition apply_hint (h : option Z) (sh : shape) : shape :=
  match h with
  | Some v => set_font_size v sh
  | None => sh
  end.

(** [entry['shape'].text = s], then the font hint on its runs. *)
Definition write (p : entry) (s : str) (h : option Z) (sl : slide) : slide :=
  with_shapes (alter (fun sh => apply_hint h (set_text s sh)) (entry_shape p) (shapes sl)) sl.

(** "First, try to find title placeholder (type 1)" *)
Definition place_title (phs : list entry) (h : option Z) (st : slide * list str)
    : slide * list str :=
  match title_placeholders phs, snd st with
  | p :: _, l0 :: rest => (write p l0 h (fst st), rest)
  | _, _ => st
  end.

(** "Then, try to find subtitle placeholder (type 2)" *)
Definition place_subtitle (phs : list entry) (h : option Z) (st : slide * list str)
    : slide * list str :=
  match subtitle_placeholders phs, snd st with
  | p :: _, l0 :: rest =>
      if len (strip l0) <? 50 then (write p l0 h (fst st), rest) else st
  | _, _ => st
  end.

Definition text_box (s : str) (h : option Z) : shape :=
  apply_hint h
    {| name := lit "TextBox"; placeholder := None; text := stored s; font_size := None |}.

Section WithUnicode.
Context `{U : Unicode} `{C : Cloning}.

(** [fit_result['suggested_font_size']] when the check ran and the
    content does not fit; the empty dict otherwise. *)
Definition font_size_info (check_fit : bool) (content : str) : font_sizes :=
  if check_fit then
    let fit_result := check_content_fit_default content in
    if fits fit_result then no_sizes else suggested_font_size fit_result
  else no_sizes.

(** The names in [layouts_info]. *)
Definition layouts_info (prs : presentation) : list str :=
  List.map layout_name (flat_map slide_layouts (slide_masters prs)).

(** "Determine which layout to use": binds [selected_layout_name]. With no
    [slide_type] the assignment is commented out in the source, and the
    [print] that follows reads the unbound local. *)
Definition choose_layout_name (slide_type : option str) (info : list str) : M str :=
  match slide_type with
  | Some ((_ :: _) as selected_layout_name) =>
      let* _ := print (UsingSpecifiedLayout selected_layout_name) in
      let* _ := if existsb (str_eqb selected_layout_name) info then ret tt
                else print (WarnLayoutNotFound selected_layout_name) in
      ret selected_layout_name
  | _ => raise (UnboundLocalError (lit "selected_layout_name"))
  end.

(** The two nested [for] loops with their [break]s: the first layout, in
    master-then-layout order, that satisfies [p]. *)
Fixpoint find_in_masters (p : slide_layout -> bool) (masters : list slide_master)
    : option slide_layout :=
  match masters with
  | [] => None
  | m :: ms =>
      match List.find p (slide_layouts m) with
      | Some l => Some l
      | None => find_in_masters p ms
      end
  end.

Definition exact_match (selected_layout_name : str) (l : slide_layout) : bool :=
  str_eqb (layout_name l) selected_layout_name.
Definition case_insensitive_match (selected_layout_name : str) (l : slide_layout) : bool :=
  str_eqb (lower (layout_name l)) (lower selected_layout_name).

(** "Find the layout object by name", down to the "Final fallback". *)
Definition find_layout_object (slide_type : option str) (selected_layout_name : str)
    (prs : presentation) : M slide_layout :=
  let layout_obj := find_in_masters (exact_match selected_layout_name) (slide_masters prs) in
  let* layout_obj :=
    match layout_obj with
    | Some l => ret (Some l)
    | None =>
        if truthy slide_type then
          match find_in_masters (case_insensitive_match selected_layout_name)
                  (slide_masters prs) with
          | Some l =>
              let* _ := print (CaseInsensitiveMatch selected_layout_name (layout_name l)) in
              ret (Some l)
          | None => ret None
          end
        else ret None
    end in
  match layout_obj with
  | Some l => ret l
  | None =>
      let* _ := print (UsingDefaultLayout selected_layout_name) in
      let* ls := first_master_layouts prs in
      getitem ls 0
  end.

Definition resolve_layout (slide_type : option str) (prs : presentation) : M slide_layout :=
  let* selected_layout_name := choose_layout_name slide_type (layouts_info prs) in
  find_layout_object slide_type selected_layout_name prs.

(** One iteration of the column loop. *)
Definition column_line (c : columns) (line : str) : columns :=
  if has_left_marker line then
    {| left_column_content := left_column_content c;
       right_column_content := right_column_content c;
       column_mode := true; current_left := true |}
  else if has_right_marker line then
    {| left_column_content := left_column_content c;
       right_column_content := right_column_content c;
       column_mode := true; current_left := false |}
  else if column_mode c then
    if current_left c then
      {| left_column_content := left_column_content c ++ [line];
         right_column_content := right_column_content c;
         column_mode := column_mode c; current_left := current_left c |}
    else
      {| left_column_content := left_column_content c;
         right_column_content := right_column_content c ++ [line];
         column_mode := column_mode c; current_left := current_left c |}
  else
    {| left_column_content := left_column_content c ++ [line];
       right_column_content := right_column_content c;
       column_mode := column_mode c; current_left := current_left c |}.

Definition split_columns (lines : list str) : columns := fold_left column_line lines columns0.

(** The lines that carry no marker, in their order. *)
Definition non_marker_lines (lines : list str) : list str :=
  List.filter (fun line => negb (has_left_marker line || has_right_marker line)) lines.

(** The [if]/[elif]/[elif] over [content_placeholders]: exactly two with
    markers, exactly two without, otherwise the first one. The boolean is
    [content_added]. *)
Definition place_body (phs : list entry) (h : option Z) (c : columns) (sl : slide)
    : slide * bool :=
  match content_placeholders phs with
  | [p0; p1] =>
      if column_mode c then
        (write p1 (join [newline] (right_column_content c)) h
           (write p0 (join [newline] (left_column_content c)) h sl), true)
      else
        let middle := Nat.div (length (left_column_content c)) 2 in
        let right := skipn middle (left_column_content c) in
        let left := firstn middle (left_column_content c) in
        (write p1 (join [newline] right) h (write p0 (join [newline] left) h sl), true)
  | p0 :: _ => (write p0 (join [newline] (left_column_content c)) h sl, true)
  | [] => (sl, false)
  end.

(** "If no suitable content placeholder found but we have content, add a
    textbox" *)
Definition place_textbox (h : option Z) (c : columns) (st : slide * bool) : slide :=
  let (sl, content_added) := st in
  if negb content_added
     && negb (bool_decide (left_column_content c = [])
              && bool_decide (right_column_content c = []))
  then
    let all_content := left_column_content c ++ right_column_content c in
    with_shapes (shapes sl ++ [text_box (join [newline] all_content) h]) sl
  else sl.

(** "Add presenter comments if provided" *)
Definition add_comments (comments : option str) (sl : slide) : slide :=
  if truthy comments
  then {| shapes := shapes sl; notes_text := option_map stored comments |}
  else sl.

(** The lines left once title and subtitle have taken theirs. *)
Definition after_headings (check_fit : bool) (content : str) (new_slide : slide)
    : slide * list str :=
  let info := font_size_info check_fit content in
  let phs := find_placeholders 0 (shapes new_slide) in
  place_subtitle phs (hint check_fit (subtitle info))
    (place_title phs (hint check_fit (title info)) (new_slide, split newline content)).

(** The content of the new slide, from [lines = content.split] on. *)
Definition fill_slide (check_fit : bool) (content : str) (comments : option str)
    (new_slide : slide) : slide :=
  let info := font_size_info check_fit content in
  let phs := find_placeholders 0 (shapes new_slide) in
  let st := after_headings check_fit content new_slide in
  let c := split_columns (snd st) in
  let h := hint check_fit (body info) in
  add_comments comments (place_textbox h c (place_body phs h c (fst st))).

(** From the opened presentation to the one that is saved. *)
Definition add_slide (prs : presentation) (content : str) (slide_type comments : option str)
    (check_fit : bool) : M presentation :=
  let* layout_obj := resolve_layout slide_type prs in
  let new_slide := new_slide_from layout_obj in
  ret (with_slides (slides prs ++ [fill_slide check_fit content comments new_slide]) prs).

(** The whole call. [downloaded] is what downloading and opening the
    source gives, [can_save] whether saving a presentation succeeds. The
    answer is the presentation behind the returned path, or [None]. *)
Definition add_slide_from_blob_url (downloaded : result presentation)
    (can_save : presentation -> bool) (content : str) (slide_type comments : option str)
    (check_fit : bool) : list diag * option presentation :=
  let body :=
    let* prs := ([], downloaded) in
    let* prs' := add_slide prs content slide_type comments check_fit in
    if can_save prs' then ret prs' else raise (TransportError (lit "save")) in
  match body with
  | (out, Ok prs') => (out, Some prs')
  | (out, Raise e) => (out ++ [ErrorAddingSlide e], None)
  end.

End WithUnicode.

End AddSlide.

(** ** Batch update: [update_powerpoint_file] *)

Module Update.
Import Py Eff Pptx.

(** An entry of [update['updates']]: the keys ['placeholder_idx'],
    ['text'] and ['font_size'], each possibly missing. *)
Record placeholder_update := {
  placeholder_idx : option Z;
  new_text : option str;
  new_font_size : option Z
}.

(** A slide update instruction: ['slide_index'], possibly missing, and
    ['updates'], the empty list when missing. *)
Record slide_update := {
  slide_index : option Z;
  updates : list placeholder_update
}.

(** What the call leaves behind: the value returned and, when the file
    was saved, its new content. *)
Record outcome := {
  success : bool;
  saved : option presentation
}.

(** "Find the shape with matching placeholder index": the first one and
    its position, from position [i] on. [hasattr(s, 'placeholder_format')]
    lets the [ValueError] of a shape that is not a placeholder through. *)
Fixpoint find_shape (wanted : Z) (i : nat) (shs : list shape)
    : result (option (nat * shape)) :=
  match shs with
  | [] => Ok None
  | sh :: r =>
      match placeholder sh with
      | Some pf => if idx pf =? wanted then Ok (Some (i, sh)) else find_shape wanted (S i) r
      | None => Raise (ValueError (lit "shape is not a placeholder"))
      end
  end.

(** [if font_size:] then the size on every run; a run refuses a size
    outside 1 to 4000 points. *)
Definition apply_font_size (size : option Z) (sh : shape) : result shape :=
  match size with
  | Some v =>
      if v =? 0 then Ok sh
      else if has_runs (text sh) then
        if (1 <=? v) && (v <=? 4000) then Ok (set_font_size v sh)
        else Raise (ValueError (lit "font size out of range"))
      else Ok sh
  | None => Ok sh
  end.

(** [shape.text = new_text], then the font size. *)
Definition assign (s : str) (size : option Z) (sh : shape) : result shape :=
  if storable s then apply_font_size size (set_text s sh)
  else Raise (ValueError (lit "string not XML compatible")).

(** The body of [for placeholder_update in updates]. *)
Definition apply_placeholder_update (sl : slide) (pu : placeholder_update) : M slide :=
  match placeholder_idx pu, new_text pu with
  | Some wanted, Some s =>
      let* shape := ([], find_shape wanted 0 (shapes sl)) in
      match shape with
      | None => let* _ := print (WarnNoPlaceholder wanted) in ret sl
      | Some (i, sh) =>
          let* sh' := ([], assign s (new_font_size pu) sh) in
          ret (with_shapes (<[i := sh']> (shapes sl)) sl)
      end
  | _, _ => let* _ := print WarnMissingIdxOrText in ret sl
  end.

(** The body of [for update in slide_updates]. *)
Definition apply_slide_update (prs : presentation) (update : slide_update) : M presentation :=
  match slide_index update with
  | None => let* _ := print WarnNoSlideIndex in ret prs
  | Some i =>
      if (i <? 0) || (i >=? len (slides prs)) then
        let* _ := print (WarnInvalidSlideIndex i) in ret prs
      else
        let* sl := getitem (slides prs) i in
        let* sl' := for_each apply_placeholder_update (updates update) sl in
        ret (with_slides (<[Z.to_nat i := sl']> (slides prs)) prs)
  end.

(** The [try] block once the file is open. *)
Definition apply_updates (prs : presentation) (slide_updates : list slide_update)
    : M presentation :=
  for_each apply_slide_update slide_updates prs.

(** The whole call. [opened] is what [Presentation(file_path)] gives,
    [can_save] whether [prs.save] succeeds. *)
Definition update_powerpoint_file (opened : result presentation)
    (can_save : presentation -> bool) (slide_updates : list slide_update)
    : list diag * outcome :=
  let body :=
    let* prs := ([], opened) in
    let* prs' := apply_updates prs slide_updates in
    if can_save prs' then ret prs' else raise (TransportError (lit "save")) in
  match body with
  | (out, Ok prs') => (out, {| success := true; saved := Some prs' |})
  | (out, Raise e) => (out ++ [ErrorUpdating e], {| success := false; saved := None |})
  end.







End Update.

(** ** Layout listing: [get_powerpoint_layouts] and its callers *)

Module Layouts.
Import Py Eff Pptx.

(** What downloading to a temporary file gives: [(local_path, None)] or
    [(None, error_message)], the message never empty. *)
Inductive download :=
| Downloaded (local_path : str)
| DownloadFailed (error : str).

(** An entry of ['placeholders'] in a layout's dictionary. *)
Record placeholder_info := {
  info_idx : Z;
  info_type : str;
  info_name : str
}.

(** The dictionary of one layout. *)
Record layout_info := {
  index : Z;
  info_layout_name : str;
  placeholder_count : Z;
  info_placeholders : list placeholder_info
}.

Section WithTypeNames.

(** [str(placeholder.placeholder_format.type)], the printed name of a
    placeholder type. *)
Variable type_name : Z -> str.

(** The inner [for placeholder in slide_layout.placeholders]; a shape
    without placeholder format is not among a layout's placeholders. *)
Definition placeholder_infos (shs : list shape) : list placeholder_info :=
  omap (fun sh =>
          match placeholder sh with
          | Some pf =>
              Some {| info_idx := idx pf; info_type := type_name (type pf);
                      info_name := name sh |}
          | None => None
          end) shs.

(** [for idx, slide_layout in enumerate(slide_master.slide_layouts)], the
    counter starting at [i]. *)
Fixpoint master_infos (i : Z) (ls : list slide_layout) : list layout_info :=
  match ls with
  | [] => []
  | l :: r =>
      let placeholders := placeholder_infos (Pptx.placeholders l) in
      {| index := i; info_layout_name := layout_name l;
         placeholder_count := len placeholders;
         info_placeholders := placeholders |} :: master_infos (i + 1) r
  end.

(** [opened] is what [Presentation(pptx_path)] gives; a failure is
    printed and the empty list returned. *)
Definition get_powerpoint_layouts (opened : result presentation) : list layout_info :=
  match opened with
  | Ok presentation =>
      flat_map (fun m => master_infos 0 (slide_layouts m)) (slide_masters presentation)
  | Raise _ => []
  end.

(** [open_file] is [Presentation] on a local path. *)
Definition get_powerpoint_layouts_from_blob_url (dl : download)
    (open_file : str -> result presentation) : list layout_info :=
  match dl with
  | DownloadFailed _ => []
  | Downloaded local_path => get_powerpoint_layouts (open_file local_path)
  end.

Definition get_layout_names_from_blob_url (dl : download)
    (open_file : str -> result presentation) : list str :=
  List.map info_layout_name (get_powerpoint_layouts_from_blob_url dl open_file).

End WithTypeNames.

End Layouts.

(** ** Transport helpers: app/powerpoint/client.py *)

Module Client.
Import Py.

Definition carriage_return : char := 13%N.

(** [s.replace(c, '')] for a one-character [c] *)
Definition remove_char (c : char) (s : str) : str :=
  List.filter (fun x => negb (x =? c)%N) s.

(** [url.strip().replace('\n', '').replace('\r', '')], the clean-up at
    the head of [fetch_file], [download_pptx_to_temp] and
    [add_slide_from_blob_url]. *)
Definition clean_url (url : str) : str :=
  remove_char carriage_return (remove_char newline (strip url)).

End Client.

(** ** Blob round trip: [update_powerpoint_from_blob] *)

Module BlobUpdate.
Import Py Eff Pptx Layouts.

(** What ends a call: the exceptions of the document code, or the
    [TypeError] of awaiting a value that is not awaitable. *)
Inductive exception :=
| Propagated (e : exn)
| TypeError (what : str).

Inductive outcome (A : Type) :=
| Returns (a : A)
| Raises (e : exception).
Arguments Returns {A} a.
Arguments Raises {A} e.

(** The value of a call expression under [await]: the call of an
    [async def] is a coroutine, the call of a plain [def] is just its
    result. *)
Inductive called (A : Type) :=
| Coroutine (result : A)
| Plain (result : A).
Arguments Coroutine {A} result.
Arguments Plain {A} result.

(** [await e]: a coroutine gives its result; anything else here is
    [None], which cannot be awaited. *)
Definition await {A} (e : called A) : outcome A :=
  match e with
  | Coroutine r => Returns r
  | Plain _ => Raises (TypeError (lit "object NoneType can't be used in 'await' expression"))
  end.

(** [try: ... finally: ...]: an exception of the [finally] block
    replaces whatever the body was about to return or raise. *)
Definition try_finally {A} (body : outcome A) (final : outcome unit) : outcome A :=
  match final with
  | Raises e => Raises e
  | Returns _ => body
  end.

(** The second component of the pair returned, by the f-string that
    builds it. *)
Inductive message :=
| NoMessage
| ErrorDownloading (error : str)
| FailedToUpdate
| ErrorUploading (error : bool * option str).

(** [if t:] on a pair: a tuple of length two. *)
Definition pair_truthy {A B} (t : A * B) : bool := negb (Nat.eqb 2 0).

(** [cleanup_temp_file] is a plain [def]; it returns [None]. *)
Definition cleanup_temp_file (file_path : option str) : called unit := Plain tt.

(** The [try] block. [dl] is what [download_pptx_to_temp] gave,
    [open_file] and [can_save] the file system under
    [update_powerpoint_file], [uploaded] the pair [upload_pptx_to_blob]
    gives. *)
Definition try_block (dl : download) (open_file : str -> result presentation)
    (can_save : presentation -> bool) (slide_updates : list Update.slide_update)
    (uploaded : bool * option str) : bool * message :=
  match dl with
  | DownloadFailed error => (false, ErrorDownloading error)
  | Downloaded local_path =>
      let success :=
        Update.success
          (snd (Update.update_powerpoint_file (open_file local_path) can_save slide_updates)) in
      if negb success then (false, FailedToUpdate)
      else
        let error := uploaded in
        if pair_truthy error then (false, ErrorUploading error)
        else (true, NoMessage)
  end.

Definition local_path_of (dl : download) : option str :=
  match dl with
  | Downloaded local_path => Some local_path
  | DownloadFailed _ => None
  end.

Definition update_powerpoint_from_blob (dl : download)
    (open_file : str -> result presentation) (can_save : presentation -> bool)
    (slide_updates : list Update.slide_update) (uploaded : bool * option str)
    : outcome (bool * message) :=
  try_finally
    (Returns (try_block dl open_file can_save slide_updates uploaded))
    (await (cleanup_temp_file (local_path_of dl))).

End BlobUpdate.

(** ** What a batch update can see of a document *)

Module UpdateView.
Import Py Eff Pptx.

(** What no assignment of the update code touches of a shape: its name
    and its placeholder format. *)
Definition frame (sh : shape) : str * option placeholder_format :=
  (name sh, placeholder sh).

Definition slide_frame (sl : slide) : option str * list (str * option placeholder_format) :=
  (notes_text sl, List.map frame (shapes sl)).

Definition document_frame (prs : presentation) :=
  (slide_masters prs, List.map slide_frame (slides prs)).

(** [prs.slides[j].shapes[k]], when both positions exist. *)
Definition shape_at (prs : presentation) (j k : nat) : option shape :=
  match slides prs !! j with
  | Some sl => shapes sl !! k
  | None => None
  end.

End UpdateView.

(** ** What can be read off a slide *)

Module SlideView.
Import Py Pptx.


End SlideView.

(** ** Sample inputs *)

Module Samples.
Import Py Eff Pptx.

(** A slide text given line by line. *)
Definition of_lines (ls : list string) : str := join [newline] (List.map lit ls).

(** Nine bullets under the left marker, one under the right one. *)
Definition nine_left_one_right : str :=
  of_lines (["Plan"%string; "LEFT COLUMN:"%string] ++ repeat "- left item"%string 9
            ++ ["RIGHT COLUMN:"%string; "- right item"%string]).

(** Twenty bullets, no marker. *)
Definition twenty_bullets : str := of_lines (repeat "- item"%string 20).

(** A placeholder shape of a layout, with its index and type. *)
Definition placeholder_shape (i t : Z) : shape :=
  {| name := lit "Placeholder";
     placeholder := Some {| idx := i; type := t |};
     text := []; font_size := None |}.

(** Names as python-pptx makes them on a new slide: a name for the type
    of the placeholder, then the number of the shape. *)
Definition numbered_names : Cloning :=
  {| clone_name := fun k sh =>
       match placeholder sh with
       | Some pf =>
           if type pf =? 1 then lit "Title"
           else if type pf =? 7 then lit "Content Placeholder"
           else lit "Text Placeholder"
       | None => lit "Placeholder"
       end ++ lit " " ++ str_of_int (Z.of_nat (S k)) |}.

(** Layouts: title, subtitle and one body; one body alone. *)
Definition title_layout : slide_layout :=
  {| layout_name := lit "Title Slide";
     placeholders := [placeholder_shape 0 1; placeholder_shape 1 2; placeholder_shape 2 7] |}.
Definition body_only_layout : slide_layout :=
  {| layout_name := lit "Content";
     placeholders := [placeholder_shape 0 7] |}.

(** A document with one master and these two layouts, and no slide. *)
Definition deck : presentation :=
  {| slide_masters := [ {| slide_layouts := [title_layout; body_only_layout] |} ];
     slides := [] |}.

(** One line under each marker. *)
Definition two_columns : str :=
  of_lines ["LEFT COLUMN:"%string; "a"%string; "RIGHT COLUMN:"%string; "b"%string].

(** The right column first, then the left one. *)
Definition right_then_left : list str :=
  List.map lit ["RIGHT COLUMN:"%string; "b"%string; "LEFT COLUMN:"%string; "a"%string].

(** A title, then a line of sixty characters. *)
Definition long_second_line : str :=
  of_lines ["Title"%string;
            "123456789 123456789 123456789 123456789 123456789 123456789 "%string;
            "- point"%string].

(** A document whose first master has no layout; the second has one. *)
Definition empty_first_master_deck : presentation :=
  {| slide_masters := [ {| slide_layouts := [] |}; {| slide_layouts := [title_layout] |} ];
     slides := [] |}.

(** A document with one slide: a title and a body placeholder. *)
Definition one_slide_deck : presentation :=
  {| slide_masters := slide_masters deck;
     slides := [ {| shapes := [placeholder_shape 0 1; placeholder_shape 1 7];
                    notes_text := None |} ] |}.

(** A batch for it: a good instruction whose inner updates are one good,
    one for an index the slide lacks and one without index; then an
    instruction out of range and one without [slide_index]. *)
Definition batch : list Update.slide_update :=
  [ {| Update.slide_index := Some 0;
       Update.updates :=
         [ {| Update.placeholder_idx := Some 1;
              Update.new_text := Some (lit "Updated");
              Update.new_font_size := Some 18 |};
           {| Update.placeholder_idx := Some 9;
              Update.new_text := Some (lit "Lost");
              Update.new_font_size := None |};
           {| Update.placeholder_idx := None;
              Update.new_text := Some (lit "Lost");
              Update.new_font_size := None |} ] |};
    {| Update.slide_index := Some 5; Update.updates := [] |};
    {| Update.slide_index := None; Update.updates := [] |} ].


(** A document with one slide: a text box, then a body placeholder. *)
Definition text_box_deck : presentation :=
  {| slide_masters := slide_masters deck;
     slides := [ {| shapes := [ {| name := lit "TextBox 1"; placeholder := None;
                                   text := lit "Note"; font_size := None |};
                                placeholder_shape 1 7 ];
                    notes_text := None |} ] |}.

(** The one-slide document once [batch] has run. *)
Definition updated_deck : presentation :=
  with_slides
    [ {| shapes := [placeholder_shape 0 1;
                    set_font_size 18 (set_text (lit "Updated") (placeholder_shape 1 7))];
         notes_text := None |} ]
    one_slide_deck.

End Samples.

(** * Properties *)

(** ** The content fit analyzer *)

Module FitFacts.
Import Py Fit Samples.

Section WithUnicode.
Context `{U : Unicode}.

(** *** The flags of the bullet loop *)

Lemma scan_line_exclusive s line : exclusive s -> exclusive (scan_line s line).
Proof.
  unfold exclusive, scan_line. intros Hs.
  destruct (has_left_marker line); [reflexivity|].
  destruct (has_right_marker line); [reflexivity|].
  destruct (is_bullet _ || is_numbered _); [|exact Hs].
  destruct (in_right_column s) eqn:E; simpl; rewrite ?E; exact Hs.
Qed.

Lemma fold_scan_exclusive lines : forall s,
  exclusive s -> exclusive (fold_left scan_line lines s).
Proof.
  induction lines as [|l ls IH]; intros s Hs; simpl; [exact Hs|].
  apply IH, scan_line_exclusive, Hs.
Qed.

(** The two flags are never both set when the loop ends, whatever the
    content: a marker of one side clears the flag of the other. *)
Lemma count_bullets_exclusive lines : exclusive (count_bullets lines).
Proof. apply fold_scan_exclusive. reflexivity. Qed.

(** Hence the branch "Two columns were detected" is never taken. *)
Lemma check_columns_single lines m a :
  let s := count_bullets lines in
  check_columns s m a =
  if left_bullets s + right_bullets s >? m
  then check_single_column (left_bullets s + right_bullets s) m a
  else a.
Proof.
  intros s. unfold check_columns.
  pose proof (count_bullets_exclusive lines) as H. unfold exclusive in H.
  fold s in H. rewrite H. reflexivity.
Qed.

(** *** Warnings only grow *)

Lemma extends_refl a : extends a a.
Proof. exists []. now rewrite app_nil_r. Qed.

Lemma extends_trans a b c : extends a b -> extends b c -> extends a c.
Proof.
  intros [w1 H1] [w2 H2]. exists (w1 ++ w2). now rewrite H2, H1, app_assoc.
Qed.

Lemma extends_warn msg a : extends a (warn msg a).
Proof. now exists [msg]. Qed.

Lemma extends_add_score d a b : extends a b -> extends a (add_score d b).
Proof. intros [w H]. now exists w. Qed.

Lemma extends_suggest f a b : extends a b -> extends a (suggest f b).
Proof. intros [w H]. now exists w. Qed.

Ltac grow :=
  repeat first
    [ apply extends_refl
    | apply extends_suggest
    | apply extends_add_score
    | apply extends_warn
    | match goal with |- context [if ?c then _ else _] => destruct c end
    | match goal with |- context [match ?l with [] => _ | _ :: _ => _ end] => destruct l end
    | eapply extends_trans; [|apply extends_warn] ].

Lemma extends_check_total_lines n m a : extends a (check_total_lines n m a).
Proof. unfold check_total_lines. grow. Qed.

Lemma extends_check_single_column n m a : extends a (check_single_column n m a).
Proof. unfold check_single_column. grow. Qed.

Lemma body_check_total_lines n m a :
  body (sizes (check_total_lines n m a)) = body (sizes a).
Proof.
  unfold check_total_lines.
  destruct (n >? m); [|reflexivity].
  destruct (n >? m + 5); reflexivity.
Qed.

(** *** Counting lines that are all bullets *)

Lemma scan_line_counted s line :
  counted line = true -> in_right_column s = false ->
  scan_line s line =
  {| left_bullets := left_bullets s + 1; right_bullets := right_bullets s;
     in_left_column := in_left_column s; in_right_column := false |}.
Proof.
  unfold counted, scan_line. intros H Hr.
  apply andb_prop in H as [H Hb]. apply andb_prop in H as [Hl Hrm].
  apply negb_true_iff in Hl, Hrm. rewrite Hl, Hrm, Hb, Hr. reflexivity.
Qed.

Lemma fold_scan_counted lines : forall s,
  Forall (fun l => counted l = true) lines -> in_right_column s = false ->
  fold_left scan_line lines s =
  {| left_bullets := left_bullets s + len lines; right_bullets := right_bullets s;
     in_left_column := in_left_column s; in_right_column := false |}.
Proof.
  induction lines as [|l ls IH]; intros s Hall Hr.
  - destruct s; simpl in *. subst. f_equal. unfold len. simpl. lia.
  - inversion Hall as [|? ? Hl Hls]; subst. simpl fold_left.
    rewrite (scan_line_counted s l Hl Hr).
    rewrite IH by (assumption || reflexivity). simpl. f_equal.
    unfold len. simpl length. lia.
Qed.

Lemma count_bullets_counted lines :
  Forall (fun l => counted l = true) lines ->
  count_bullets lines =
  {| left_bullets := len lines; right_bullets := 0;
     in_left_column := false; in_right_column := false |}.
Proof.
  intros H. unfold count_bullets. rewrite fold_scan_counted by (assumption || reflexivity).
  reflexivity.
Qed.

Lemma split_not_nil sep s : split sep s <> [].
Proof.
  destruct s as [|c r]; simpl; [discriminate|].
  destruct (c =? sep)%N; [discriminate|].
  destruct (split sep r); discriminate.
Qed.

Lemma score_twenty lines max_title_words max_lines max_chars_per_line :
  length lines = 20%nat ->
  Forall (fun l => counted l = true) lines ->
  exists a,
    score lines max_title_words max_lines 8 max_chars_per_line =
    check_total_lines 20 max_lines
      (suggest (set_body 14) (add_score 20
         (warn (lit "Found 20 bullet points in a single column (recommended: 8)")
            (suggest (set_body 16) (add_score 8
               (warn (lit "Total of 20 bullet points may be too many for one slide") a)))))).
Proof.
  intros Hlen Hall. unfold score.
  rewrite (count_bullets_counted lines Hall).
  assert (Hl : len lines = 20) by (unfold len; rewrite Hlen; reflexivity).
  cbn [left_bullets right_bullets]. rewrite Hl.
  eexists. reflexivity.
Qed.

(** C7: content of 20 bullet lines without column markers, assessed with
    [max_bullets_per_column = 8] (whatever the other limits, the defaults
    included), does not fit, has a warning that mentions "20", and gets
    the body font size 14. *)
Theorem twenty_bullets_do_not_fit
    (content : str) (max_title_words max_lines max_chars_per_line : Z) :
  length (split newline (strip content)) = 20%nat ->
  Forall (fun l => counted l = true) (split newline (strip content)) ->
  let r := check_content_fit content max_title_words max_lines 8 max_chars_per_line in
  fits r = false
  /\ Exists (fun w => contains (lit "20") w = true) (warnings r)
  /\ body (suggested_font_size r) = Some 14.
Proof.
  intros Hlen Hall r. subst r. unfold check_content_fit.
  destruct (strip content) as [|c rest] eqn:E; [discriminate Hlen|].
  destruct (score_twenty _ max_title_words max_lines max_chars_per_line Hlen Hall)
    as [a Ha].
  rewrite Ha. clear Ha. cbn [fits warnings suggested_font_size].
  set (a3 := suggest (set_body 14) _).
  destruct (extends_check_total_lines 20 max_lines a3) as [ws Hws].
  rewrite Hws, body_check_total_lines.
  subst a3. cbn [warnings_so_far suggest add_score warn sizes body set_body].
  repeat split.
  - destruct (warnings_so_far a); reflexivity.
  - rewrite !Exists_app. left. left. right. left. reflexivity.
Qed.

(** *** What the loop counts *)

Lemma digit_not_bullet d rest : isdigit d = true -> is_bullet (d :: rest) = false.
Proof.
  intros Hd. unfold is_bullet. cbn [startswith].
  destruct (N.eqb_spec hyphen d) as [E|_].
  - subst d. rewrite isdigit_hyphen in Hd. discriminate.
  - destruct (N.eqb_spec bullet d) as [E|_]; [|reflexivity].
    subst d. rewrite isdigit_bullet in Hd. discriminate.
Qed.

(** [counted] is what the loop does: a counted line adds one to exactly
    one of the counters, any other line leaves both as they are. *)
Lemma scan_line_counts s line :
  left_bullets (scan_line s line) + right_bullets (scan_line s line) =
  left_bullets s + right_bullets s + (if counted line then 1 else 0).
Proof.
  unfold scan_line, counted.
  destruct (has_left_marker line); simpl; [lia|].
  destruct (has_right_marker line); simpl; [lia|].
  destruct (is_bullet _ || is_numbered _); simpl; [|lia].
  destruct (in_right_column s); simpl; lia.
Qed.

(** The rule for numbered items, spelled out. *)
Lemma is_numbered_spec (t : str) :
  is_numbered t = true <->
  2 < len t /\ exists c0 rest, t = c0 :: period :: rest /\ isdigit c0 = true.
Proof.
  unfold is_numbered. split.
  - intros H. apply andb_prop in H as [Hlen H].
    destruct t as [|c0 [|c1 rest]]; try discriminate.
    apply andb_prop in H as [Hd Hp]. apply N.eqb_eq in Hp. subst c1.
    split; [lia|]. now exists c0, rest.
  - intros [Hlen (c0 & rest & -> & Hd)].
    apply andb_true_intro. split; [lia|].
    rewrite Hd. unfold period. now rewrite N.eqb_refl.
Qed.

Lemma digit_period_not_counted (line : str) d :
  isdigit d = true -> strip line = [d; period] -> counted line = false.
Proof.
  intros Hd Hs. unfold counted. rewrite Hs.
  rewrite (digit_not_bullet d [period] Hd).
  unfold is_numbered. simpl. now rewrite !andb_false_r.
Qed.

Lemma two_digits_not_counted (line : str) d1 d2 rest :
  isdigit d1 = true -> isdigit d2 = true -> strip line = d1 :: d2 :: rest ->
  counted line = false.
Proof.
  intros Hd1 Hd2 Hs. unfold counted. rewrite Hs.
  rewrite (digit_not_bullet d1 (d2 :: rest) Hd1).
  unfold is_numbered.
  destruct (N.eqb_spec d2 period) as [E|_].
  - subst d2. rewrite isdigit_period in Hd2. discriminate.
  - now rewrite !andb_false_r.
Qed.

(** A line that is not counted leaves both counters as they are. *)
Lemma scan_line_not_counted s line :
  counted line = false ->
  left_bullets (scan_line s line) = left_bullets s
  /\ right_bullets (scan_line s line) = right_bullets s.
Proof.
  unfold counted, scan_line. intros H.
  destruct (has_left_marker line); cbn; [auto|].
  destruct (has_right_marker line); cbn; [auto|].
  cbn in H. rewrite H. auto.
Qed.

Lemma fold_scan_not_counted lines : forall s,
  Forall (fun l => counted l = false) lines ->
  left_bullets (fold_left scan_line lines s) = left_bullets s
  /\ right_bullets (fold_left scan_line lines s) = right_bullets s.
Proof.
  induction lines as [|l ls IH]; intros s H; [auto|].
  inversion H as [|? ? Hl Hls]; subst. cbn [fold_left].
  destruct (IH (scan_line s l) Hls) as [E1 E2].
  destruct (scan_line_not_counted s l Hl) as [F1 F2]. split; congruence.
Qed.

(** C10: the bullet loop of [check_content_fit] counts a line without
    column marker exactly when, once trimmed, it starts with a hyphen or a
    bullet sign, or is longer than two characters, starts with a digit
    and has a period second: it then adds one to the counter of the
    current column, and otherwise changes nothing. So a line that trims
    to a digit and a period, and a line that trims to something starting
    with two digits, leave both counters as they are, and after a content
    made of such lines alone both counters are 0. *)
Theorem numbered_line_rule :
  (forall (s : scan) (line : str),
     has_left_marker line = false -> has_right_marker line = false ->
     let t := strip line in
     let numbered :=
       2 < len t /\ exists c0 rest, t = c0 :: period :: rest /\ isdigit c0 = true in
     (is_bullet t = true \/ numbered ->
      scan_line s line
      = if in_right_column s
        then {| left_bullets := left_bullets s; right_bullets := right_bullets s + 1;
                in_left_column := in_left_column s; in_right_column := in_right_column s |}
        else {| left_bullets := left_bullets s + 1; right_bullets := right_bullets s;
                in_left_column := in_left_column s; in_right_column := in_right_column s |})
     /\ (is_bullet t = false -> ~ numbered -> scan_line s line = s))
  /\ (forall (s : scan) (line : str) d,
        isdigit d = true -> strip line = [d; period] ->
        left_bullets (scan_line s line) = left_bullets s
        /\ right_bullets (scan_line s line) = right_bullets s)
  /\ (forall (s : scan) (line : str) d1 d2 rest,
        isdigit d1 = true -> isdigit d2 = true -> strip line = d1 :: d2 :: rest ->
        left_bullets (scan_line s line) = left_bullets s
        /\ right_bullets (scan_line s line) = right_bullets s)
  /\ (forall lines : list str,
        Forall (fun line =>
                  exists d, isdigit d = true
                            /\ (strip line = [d; period]
                                \/ exists d2 rest, isdigit d2 = true
                                                   /\ strip line = d :: d2 :: rest)) lines ->
        left_bullets (count_bullets lines) = 0
        /\ right_bullets (count_bullets lines) = 0).
Proof.
  split; [|split; [|split]].
  - intros s line Hl Hr t numbered. subst t numbered. unfold scan_line. rewrite Hl, Hr.
    split.
    + intros H.
      assert (E : is_bullet (strip line) || is_numbered (strip line) = true).
      { destruct H as [H|H]; [now rewrite H|].
        apply is_numbered_spec in H. rewrite H. apply orb_true_r. }
      rewrite E. now destruct (in_right_column s).
    + intros Hb Hn. rewrite Hb. cbn.
      destruct (is_numbered (strip line)) eqn:E; [|reflexivity].
      apply is_numbered_spec in E. contradiction.
  - intros s line d Hd Hs. apply scan_line_not_counted.
    now apply (digit_period_not_counted line d).
  - intros s line d1 d2 rest Hd1 Hd2 Hs. apply scan_line_not_counted.
    now apply (two_digits_not_counted line d1 d2 rest).
  - intros lines H. unfold count_bullets.
    apply (fold_scan_not_counted lines scan0).
    eapply Forall_impl; [exact H|]. cbn.
    intros line (d & Hd & [Hs|(d2 & rest & Hd2 & Hs)]).
    + now apply (digit_period_not_counted line d).
    + now apply (two_digits_not_counted line d d2 rest).
Qed.

(** C1, as amended: for content that is not blank, [fits] is false exactly
    when there are warnings; blank content comes back with [fits] true and
    the one warning "Content is empty". *)
Theorem fits_false_iff_warnings
    (content : str) (max_title_words max_lines max_bullets_per_column max_chars_per_line : Z) :
  let r := check_content_fit content max_title_words max_lines max_bullets_per_column
             max_chars_per_line in
  match strip content with
  | [] => fits r = true /\ warnings r = [lit "Content is empty"]
  | _ :: _ => fits r = false <-> warnings r <> []
  end.
Proof.
  intros r. subst r. unfold check_content_fit.
  destruct (strip content) as [|c rest]; cbn [fits warnings].
  - split; reflexivity.
  - destruct (warnings_so_far _); split; intros H; congruence.
Qed.

End WithUnicode.

(** *** Concrete runs *)

(** C1 fails as stated: empty content has a warning and [fits] true. *)
Lemma empty_content_fits_with_warning :
  let r := check_content_fit (U := ascii_tables) [] 10 15 8 80 in
  ~ (fits r = false <-> warnings r <> []).
Proof.
  vm_compute. intros [_ H]. assert (E : true = false) by (apply H; discriminate).
  discriminate E.
Qed.

(** C2: with both markers present and nine bullets in the left column,
    over the limit of eight, the result carries the single-column warning
    and its penalty (4), and no warning about the left column (its
    penalty would be 2). *)
Theorem both_markers_single_column_rule :
  let lines := split newline (strip nine_left_one_right) in
  let r := check_content_fit (U := ascii_tables) nine_left_one_right 10 15 8 80 in
  existsb (has_left_marker (U := ascii_tables)) lines = true
  /\ existsb (has_right_marker (U := ascii_tables)) lines = true
  /\ left_bullets (count_bullets (U := ascii_tables) lines) = 9
  /\ right_bullets (count_bullets (U := ascii_tables) lines) = 1
  /\ warnings r = [lit "Found 10 bullet points in a single column (recommended: 8)"]
  /\ content_complexity r = 4.
Proof. vm_compute. repeat split. Qed.

Lemma twenty_bullets_do_not_fit_witness :
  let r := check_content_fit (U := ascii_tables) twenty_bullets 10 15 8 80 in
  fits r = false
  /\ Exists (fun w => contains (lit "20") w = true) (warnings r)
  /\ body (suggested_font_size r) = Some 14.
Proof.
  apply (twenty_bullets_do_not_fit (U := ascii_tables) twenty_bullets 10 15 80).
  - reflexivity.
  - vm_compute. repeat constructor.
Defined.

Lemma numbered_line_rule_witness :
  left_bullets (count_bullets (U := ascii_tables) [lit "1."; lit "10. item"]) = 0
  /\ right_bullets (count_bullets (U := ascii_tables) [lit "1."; lit "10. item"]) = 0
  /\ left_bullets (scan_line (U := ascii_tables) scan0 (lit "1. item")) = 1.
Proof.
  destruct (numbered_line_rule (U := ascii_tables)) as (H0 & _ & _ & H3).
  destruct (H3 [lit "1."; lit "10. item"]) as [E1 E2].
  - repeat constructor.
    + exists 49%N. split; [reflexivity|]. left. reflexivity.
    + exists 49%N. split; [reflexivity|]. right.
      exists 48%N, (lit ". item"). split; reflexivity.
  - split; [exact E1|]. split; [exact E2|].
    destruct (H0 scan0 (lit "1. item")) as [H _]; [reflexivity|reflexivity|].
    rewrite H; [reflexivity|]. right. split; [vm_compute; reflexivity|].
    exists 49%N, (lit " item"). split; reflexivity.
Defined.

End FitFacts.

(** ** Slide creation *)

Module AddSlideFacts.
Import Py Eff Pptx Fit AddSlide Samples.

Section WithUnicode.
Context `{U : Unicode} `{C : Cloning}.

(** *** Layout resolution *)

Lemma find_in_masters_none p masters :
  (forall l, In l (flat_map slide_layouts masters) -> p l = false) ->
  find_in_masters p masters = None.
Proof.
  induction masters as [|m ms IH]; intros H; simpl; [reflexivity|].
  simpl in H.
  destruct (List.find p (slide_layouts m)) as [l|] eqn:E.
  - apply find_some in E as [Hin Hp].
    rewrite H in Hp by (apply in_or_app; now left). discriminate.
  - apply IH. intros l Hl. apply H, in_or_app. now right.
Qed.

Lemma existsb_names_false name masters :
  (forall l, In l (flat_map slide_layouts masters) -> layout_name l <> name) ->
  existsb (str_eqb name) (List.map layout_name (flat_map slide_layouts masters)) = false.
Proof.
  intros H. apply not_true_is_false. intros E.
  apply existsb_exists in E as (n & Hin & Heq).
  apply in_map_iff in Hin as (l & <- & Hl).
  unfold str_eqb in Heq. apply bool_decide_eq_true in Heq.
  now apply (H l Hl).
Qed.

(** C3: with no [slide_type] (or an empty one) the call never reaches the
    fallback: reading [selected_layout_name] raises, the handler prints the
    error, and the call returns [None], whatever the document. *)
Theorem no_name_path_returns_none
    (prs : presentation) (can_save : presentation -> bool) (content : str)
    (comments : option str) (check_fit : bool) :
  resolve_layout None prs = ([], Raise (UnboundLocalError (lit "selected_layout_name")))
  /\ add_slide_from_blob_url (Ok prs) can_save content None comments check_fit =
     ([ErrorAddingSlide (UnboundLocalError (lit "selected_layout_name"))], None)
  /\ add_slide_from_blob_url (Ok prs) can_save content (Some []) comments check_fit =
     ([ErrorAddingSlide (UnboundLocalError (lit "selected_layout_name"))], None).
Proof. repeat split. Qed.


(** *** Title and subtitle *)

(** C9: the title takes at most the first line; the subtitle takes at
    most the next one, and only if there is a subtitle placeholder and that
    line, trimmed, is shorter than 50 characters; a next line of 50
    characters or more stays for the body. *)
Theorem headings_take_one_line_each (check_fit : bool) (content : str) (new_slide : slide) :
  let phs := find_placeholders 0 (shapes new_slide) in
  let info := font_size_info check_fit content in
  let lines := split newline content in
  let rest1 := snd (place_title phs (hint check_fit (title info)) (new_slide, lines)) in
  let rest2 := snd (after_headings check_fit content new_slide) in
  (rest1 = lines \/ (title_placeholders phs <> [] /\ rest1 = tail lines))
  /\ (rest2 = rest1
      \/ (rest2 = tail rest1 /\ subtitle_placeholders phs <> []
          /\ exists next, head rest1 = Some next /\ len (strip next) < 50))
  /\ (forall next, head rest1 = Some next -> 50 <= len (strip next) -> rest2 = rest1).
Proof.
  intros phs info lines rest1 rest2.
  subst rest2. unfold after_headings. fold phs info lines.
  set (st1 := place_title phs _ _) in *. subst rest1.
  split; [|split].
  - subst st1. unfold place_title. cbn [snd fst].
    destruct (title_placeholders phs) as [|p ps]; [now left|].
    destruct lines as [|l0 rest]; [now left|].
    right. split; [discriminate|reflexivity].
  - unfold place_subtitle.
    destruct (subtitle_placeholders phs) as [|p ps]; [now left|].
    destruct (snd st1) as [|l0 rest] eqn:E; [left; now rewrite E|].
    destruct (Z.ltb_spec (len (strip l0)) 50) as [Hlt|Hge].
    + right. cbn [snd tail]. split; [reflexivity|]. split; [discriminate|].
      exists l0. split; [reflexivity|exact Hlt].
    + left. exact E.
  - intros next Hnext Hlong. unfold place_subtitle.
    destruct (subtitle_placeholders phs) as [|p ps]; [reflexivity|].
    destruct (snd st1) as [|l0 rest] eqn:E; [discriminate|].
    cbn in Hnext. injection Hnext as ->.
    destruct (Z.ltb_spec (len (strip next)) 50) as [Hlt|Hge]; [lia|exact E].
Qed.

(** *** The column loop *)

Lemma column_line_step c line :
  let c' := column_line c line in
  if has_left_marker line || has_right_marker line
  then left_column_content c' = left_column_content c
       /\ right_column_content c' = right_column_content c
  else (left_column_content c' = left_column_content c ++ [line]
        /\ right_column_content c' = right_column_content c)
       \/ (left_column_content c' = left_column_content c
           /\ right_column_content c' = right_column_content c ++ [line]).
Proof.
  unfold column_line.
  destruct (has_left_marker line); cbn; [now split|].
  destruct (has_right_marker line); cbn; [now split|].
  destruct (column_mode c); [destruct (current_left c)|]; cbn; auto.
Qed.

Lemma fold_columns lines : forall c,
  exists L R,
    left_column_content (fold_left column_line lines c) = left_column_content c ++ L
    /\ right_column_content (fold_left column_line lines c) = right_column_content c ++ R
    /\ L ++ R ≡ₚ non_marker_lines lines
    /\ sublist L (non_marker_lines lines)
    /\ sublist R (non_marker_lines lines).
Proof.
  induction lines as [|line ls IH]; intros c.
  - exists [], []. cbn. rewrite !app_nil_r. repeat split; constructor.
  - cbn [fold_left]. destruct (IH (column_line c line)) as (L & R & HL & HR & HP & SL & SR).
    pose proof (column_line_step c line) as Hstep. cbv zeta in Hstep.
    unfold non_marker_lines in *. cbn [List.filter].
    destruct (has_left_marker line || has_right_marker line); cbn [negb].
    + destruct Hstep as [E1 E2]. exists L, R. rewrite HL, HR, E1, E2.
      repeat split; assumption.
    + destruct Hstep as [[E1 E2]|[E1 E2]]; rewrite HL, HR, E1, E2.
      * exists (line :: L), R. rewrite <- app_assoc. cbn.
        repeat split; [now constructor | now constructor | now apply sublist_cons].
      * exists L, (line :: R). rewrite <- app_assoc. cbn.
        repeat split.
        -- rewrite <- HP. symmetry. apply Permutation_middle.
        -- now apply sublist_cons.
        -- now constructor.
Qed.

Lemma non_marker_app l1 l2 :
  non_marker_lines (l1 ++ l2) = non_marker_lines l1 ++ non_marker_lines l2.
Proof. unfold non_marker_lines. apply List.filter_app. Qed.

(** Until a line is a right marker, every line that is no marker goes to
    the left side. A line with both markers counts as a left marker. *)
Lemma column_line_left c line :
  has_left_marker line = true \/ has_right_marker line = false ->
  (column_mode c = true -> current_left c = true) ->
  let c' := column_line c line in
  left_column_content c' = left_column_content c ++ non_marker_lines [line]
  /\ right_column_content c' = right_column_content c
  /\ (column_mode c' = true -> current_left c' = true).
Proof.
  intros H Hc. unfold column_line, non_marker_lines. cbn [List.filter].
  destruct (has_left_marker line) eqn:El; cbn.
  - rewrite app_nil_r. auto.
  - destruct H as [H|H]; [discriminate|]. rewrite H. cbn.
    destruct (column_mode c) eqn:Mc; [rewrite (Hc eq_refl)|]; cbn; auto.
Qed.

Lemma fold_left_side lines : forall c,
  (forall l, In l lines -> has_left_marker l = true \/ has_right_marker l = false) ->
  (column_mode c = true -> current_left c = true) ->
  let c' := fold_left column_line lines c in
  left_column_content c' = left_column_content c ++ non_marker_lines lines
  /\ right_column_content c' = right_column_content c
  /\ (column_mode c' = true -> current_left c' = true).
Proof.
  induction lines as [|line ls IH]; intros c Hno Hc; cbn [fold_left].
  - cbn. rewrite app_nil_r. auto.
  - destruct (column_line_left c line) as (L0 & R0 & M0); [apply Hno; now left|exact Hc|].
    destruct (IH (column_line c line)) as (L & R & M);
      [intros l Hl; apply Hno; now right|exact M0|].
    cbv zeta. rewrite L, R, L0, R0.
    change (line :: ls) with ([line] ++ ls). rewrite non_marker_app, app_assoc. auto.
Qed.

(** After a right marker, and until a line is a left marker, every line
    that is no marker goes to the right side. *)
Lemma column_line_right c line :
  has_left_marker line = false ->
  column_mode c = true -> current_left c = false ->
  let c' := column_line c line in
  left_column_content c' = left_column_content c
  /\ right_column_content c' = right_column_content c ++ non_marker_lines [line]
  /\ column_mode c' = true /\ current_left c' = false.
Proof.
  intros Hl Hm Hc. unfold column_line, non_marker_lines. cbn [List.filter].
  rewrite Hl, Hm, Hc. destruct (has_right_marker line); cbn; rewrite ?app_nil_r; auto.
Qed.

Lemma fold_right_side lines : forall c,
  (forall l, In l lines -> has_left_marker l = false) ->
  column_mode c = true -> current_left c = false ->
  let c' := fold_left column_line lines c in
  left_column_content c' = left_column_content c
  /\ right_column_content c' = right_column_content c ++ non_marker_lines lines.
Proof.
  induction lines as [|line ls IH]; intros c Hno Hm Hc; cbn [fold_left].
  - cbn. rewrite app_nil_r. auto.
  - destruct (column_line_right c line) as (L0 & R0 & M0 & C0);
      [apply Hno; now left|exact Hm|exact Hc|].
    destruct (IH (column_line c line)) as (L & R);
      [intros l Hl; apply Hno; now right|exact M0|exact C0|].
    cbv zeta. rewrite L, R, L0, R0.
    change (line :: ls) with ([line] ++ ls). rewrite non_marker_app, app_assoc. auto.
Qed.

(** C5, as amended: the two sides together hold each non-marker line
    exactly once (a permutation of the non-marker lines), and each side
    keeps the order the lines came in. When no left marker comes after a
    right marker, the left side is the non-marker lines before the first
    right marker and the right side those after it, so that the two sides
    joined are the non-marker lines in their original order. *)
Theorem columns_partition_lines (lines : list str) :
  let c := split_columns lines in
  left_column_content c ++ right_column_content c ≡ₚ non_marker_lines lines
  /\ sublist (left_column_content c) (non_marker_lines lines)
  /\ sublist (right_column_content c) (non_marker_lines lines)
  /\ forall before after,
       lines = before ++ after ->
       (forall l, In l before -> has_left_marker l = true \/ has_right_marker l = false) ->
       (forall l, In l after -> has_left_marker l = false) ->
       match after with [] => True | l :: _ => has_right_marker l = true end ->
       left_column_content c = non_marker_lines before
       /\ right_column_content c = non_marker_lines after
       /\ left_column_content c ++ right_column_content c = non_marker_lines lines.
Proof.
  intros c. subst c. unfold split_columns.
  destruct (fold_columns lines columns0) as (L & R & HL & HR & HP & SL & SR).
  split; [|split; [|split]].
  - rewrite HL, HR. exact HP.
  - rewrite HL. exact SL.
  - rewrite HR. exact SR.
  - clear. intros before after -> Hb Ha Hhead. rewrite fold_left_app, non_marker_app.
    destruct (fold_left_side before columns0 Hb) as (L1 & R1 & M1); [discriminate|].
    cbv zeta in L1, R1, M1. cbn [left_column_content right_column_content columns0 app] in L1, R1.
    set (c1 := fold_left column_line before columns0) in *.
    assert (H : left_column_content (fold_left column_line after c1) = non_marker_lines before
                /\ right_column_content (fold_left column_line after c1)
                   = non_marker_lines after).
    { destruct after as [|r rest]; [cbn; auto|].
      assert (Hl : has_left_marker r = false) by (apply Ha; now left).
      assert (Hr : column_line c1 r
                   = {| left_column_content := left_column_content c1;
                        right_column_content := right_column_content c1;
                        column_mode := true; current_left := false |})
        by (unfold column_line; now rewrite Hl, Hhead).
      assert (Hnm : non_marker_lines (r :: rest) = non_marker_lines rest)
        by (unfold non_marker_lines; cbn [List.filter]; now rewrite Hl, Hhead).
      cbn [fold_left]. rewrite Hr, Hnm.
      destruct (fold_right_side rest
                  {| left_column_content := left_column_content c1;
                     right_column_content := right_column_content c1;
                     column_mode := true; current_left := false |}) as (L2 & R2);
        [intros l Hin; apply Ha; now right|reflexivity|reflexivity|].
      cbv zeta in L2, R2. cbn in L2, R2. now rewrite L2, R2, L1, R1. }
    destruct H as [-> ->]. auto.
Qed.

(** *** The body *)

(** With one content placeholder, or more than two, the first one gets
    the left side only. *)
Lemma place_body_first_only phs h c sl p0 ps :
  content_placeholders phs = p0 :: ps -> length ps <> 1%nat ->
  place_body phs h c sl = (write p0 (join [newline] (left_column_content c)) h sl, true).
Proof.
  intros E Hn. unfold place_body. rewrite E.
  destruct ps as [|p1 [|p2 ps']]; [reflexivity|now contradict Hn|reflexivity].
Qed.

End WithUnicode.

(** *** Concrete runs *)

(** C4: one content placeholder, one line under each marker. The
    placeholder gets the left line; the right line is on no shape. *)
Theorem single_body_drops_right_column :
  let new_slide := new_slide_from (C := numbered_names) body_only_layout in
  let rest := snd (after_headings (U := ascii_tables) true two_columns new_slide) in
  let c := split_columns (U := ascii_tables) rest in
  let sl := fill_slide (U := ascii_tables) true two_columns None new_slide in
  non_marker_lines (U := ascii_tables) rest = [lit "a"; lit "b"]
  /\ left_column_content c = [lit "a"]
  /\ right_column_content c = [lit "b"]
  /\ List.map text (shapes sl) = [lit "a"].
Proof. vm_compute. repeat split. Qed.

(** C5 fails as stated: with the right column first, the two sides
    joined are not the non-marker lines in their original order. *)
Lemma right_then_left_is_reordered :
  let c := split_columns (U := ascii_tables) right_then_left in
  left_column_content c ++ right_column_content c
  <> non_marker_lines (U := ascii_tables) right_then_left.
Proof. vm_compute. intros H. discriminate H. Qed.


Lemma columns_partition_lines_witness :
  let c := split_columns (U := ascii_tables) (split newline two_columns) in
  left_column_content c = [lit "a"] /\ right_column_content c = [lit "b"].
Proof.
  destruct (columns_partition_lines (U := ascii_tables) (split newline two_columns))
    as (_ & _ & _ & H).
  destruct (H (List.map lit ["LEFT COLUMN:"%string; "a"%string])
              (List.map lit ["RIGHT COLUMN:"%string; "b"%string]))
    as (HL & HR & _).
  - reflexivity.
  - intros l [<-|[<-|[]]]; vm_compute; auto.
  - intros l [<-|[<-|[]]]; vm_compute; auto.
  - reflexivity.
  - cbv zeta. rewrite HL, HR. split; reflexivity.
Defined.


Lemma headings_take_one_line_each_witness :
  snd (after_headings (U := ascii_tables) true long_second_line
         (new_slide_from (C := numbered_names) title_layout))
  = [lit "123456789 123456789 123456789 123456789 123456789 123456789 "; lit "- point"].
Proof.
  destruct (headings_take_one_line_each (U := ascii_tables) true long_second_line
              (new_slide_from (C := numbered_names) title_layout)) as (_ & _ & H).
  rewrite (H (lit "123456789 123456789 123456789 123456789 123456789 123456789 ")).
  - reflexivity.
  - reflexivity.
  - vm_compute. discriminate.
Defined.

End AddSlideFacts.

(** ** Batch update *)

Module UpdateFacts.
Import Py Eff Pptx Update UpdateView Samples.

(** *** Loops in the monad *)

Lemma snd_bind {A B} (m : M A) (k : A -> M B) :
  snd (bind m k) = match snd m with Ok a => snd (k a) | Raise e => Raise e end.
Proof.
  destruct m as [out [a|e]]; cbn; [|reflexivity].
  destruct (k a); reflexivity.
Qed.

Section Loops.
Context {A S : Type} (body : S -> A -> M S) (I : S -> Prop) (P : A -> Prop).



(** What every step keeps, given that it returns, the loop keeps, given
    that it returns. *)
Lemma for_each_inv :
  (forall s x s', I s -> P x -> snd (body s x) = Ok s' -> I s') ->
  forall xs s s', Forall P xs -> I s -> snd (for_each body xs s) = Ok s' -> I s'.
Proof.
  intros Hbody. induction xs as [|x xs IH]; intros s s' Hxs Hs; cbn [for_each].
  - now intros [= <-].
  - inversion Hxs as [|? ? Hx Hxs']; subst. rewrite snd_bind.
    destruct (snd (body s x)) as [t|e] eqn:E; [|discriminate].
    apply IH; [exact Hxs'|]. now apply (Hbody s x t).
Qed.

End Loops.

(** *** What the library keeps *)



Lemma frame_set_font_size v sh : frame (set_font_size v sh) = frame sh.
Proof. unfold set_font_size. now destruct (has_runs (text sh)). Qed.

(** What an assignment gives depends on the shape through its frame
    only, and keeps the frame. *)
Lemma assign_frame s size sh1 sh2 :
  frame sh1 = frame sh2 -> assign s size sh1 = assign s size sh2.
Proof.
  unfold frame. intros H. injection H as Hn Hp.
  unfold assign, apply_font_size, set_font_size, set_text. cbn.
  now rewrite Hn, Hp.
Qed.

Lemma assign_keeps s size sh sh' : assign s size sh = Ok sh' -> frame sh' = frame sh.
Proof.
  unfold assign, apply_font_size.
  destruct (storable s); [|discriminate].
  destruct size as [v|]; [|now intros [= <-]].
  destruct (v =? 0); [now intros [= <-]|].
  destruct (has_runs _); [|now intros [= <-]].
  destruct ((1 <=? v) && (v <=? 4000)); [|discriminate].
  intros [= <-]. now rewrite frame_set_font_size.
Qed.



(** *** The search *)


(** What the search finds is the first shape with the index. *)
Lemma find_shape_found wanted shs : forall i k sh,
  find_shape wanted i shs = Ok (Some (k, sh)) ->
  (i <= k)%nat /\ shs !! (k - i)%nat = Some sh
  /\ (exists pf, placeholder sh = Some pf /\ idx pf = wanted)
  /\ forall j sh', (j < k - i)%nat -> shs !! j = Some sh' ->
       exists pf', placeholder sh' = Some pf' /\ idx pf' <> wanted.
Proof.
  induction shs as [|a r IH]; intros i k sh H; [discriminate|]. cbn in H.
  destruct (placeholder a) as [pf|] eqn:P; [|discriminate].
  destruct (Z.eqb_spec (idx pf) wanted) as [Hi|Hi].
  - injection H as <- <-. rewrite Nat.sub_diag. repeat split; [lia| |lia].
    now exists pf.
  - destruct (IH _ _ _ H) as (Hle & L & Hpf & Hfirst).
    replace (k - i)%nat with (S (k - S i)) by lia.
    repeat split; [lia|exact L|exact Hpf|].
    intros [|j] sh' Hj Hl; cbn in Hl.
    + injection Hl as <-. now exists pf.
    + apply (Hfirst j sh'); [lia|exact Hl].
Qed.

(** Two lists of shapes with the same frames give the search the same
    answer, up to the shape found. *)
Lemma find_shape_frame wanted shs1 : forall shs2 i,
  List.map frame shs1 = List.map frame shs2 ->
  match find_shape wanted i shs1, find_shape wanted i shs2 with
  | Ok None, Ok None => True
  | Ok (Some (k1, sh1)), Ok (Some (k2, sh2)) => k1 = k2 /\ frame sh1 = frame sh2
  | Raise e1, Raise e2 => e1 = e2
  | _, _ => False
  end.
Proof.
  induction shs1 as [|a l IH]; intros [|b m] i H; try discriminate; [exact I|].
  cbn in H. injection H as Hn Hp Hl. cbn [find_shape]. rewrite Hp.
  destruct (placeholder b) as [pf|] eqn:Pb; [|reflexivity].
  destruct (idx pf =? wanted); [|exact (IH m (S i) Hl)].
  split; [reflexivity|]. unfold frame. now rewrite Hn, Hp, Pb.
Qed.



Lemma map_insert_same {A B} (g : A -> B) l : forall i x y,
  l !! i = Some x -> g y = g x -> List.map g (<[i:=y]> l) = List.map g l.
Proof.
  induction l as [|a l IH]; intros [|i] x y Hx Hg; cbn in *; try discriminate.
  - injection Hx as ->. now rewrite Hg.
  - f_equal. now apply (IH i x y).
Qed.

Lemma map_lookup_same {A B} (g : A -> B) l1 : forall l2 i x1,
  List.map g l1 = List.map g l2 -> l1 !! i = Some x1 ->
  exists x2, l2 !! i = Some x2 /\ g x1 = g x2.
Proof.
  induction l1 as [|a l IH]; intros [|b m] [|i] x1 H Hx; cbn in *; try discriminate.
  - injection H as Hg _. injection Hx as <-. now exists b.
  - injection H as _ Hl. now apply (IH m i).
Qed.

Lemma map_length_same {A B} (g : A -> B) l1 l2 :
  List.map g l1 = List.map g l2 -> length l1 = length l2.
Proof. intros H. apply (f_equal (@length B)) in H. now rewrite !length_map in H. Qed.

(** *** Inner updates *)

(** An inner update that returns keeps the frame of the slide. *)
Lemma apply_placeholder_update_keeps sl pu out sl' :
  apply_placeholder_update sl pu = (out, Ok sl') -> slide_frame sl' = slide_frame sl.
Proof.
  unfold apply_placeholder_update.
  destruct (placeholder_idx pu) as [wanted|]; [|now intros [= _ <-]].
  destruct (new_text pu) as [s|]; [|now intros [= _ <-]].
  destruct (find_shape wanted 0 (shapes sl)) as [[[k sh]|]|e] eqn:F; cbn;
    [|now intros [= _ <-]|discriminate].
  destruct (assign s (new_font_size pu) sh) as [sh'|e] eqn:A; cbn; [|discriminate].
  intros [= _ <-]. unfold slide_frame. cbn. f_equal.
  destruct (find_shape_found _ _ _ _ _ F) as (_ & L & _). rewrite Nat.sub_0_r in L.
  apply (map_insert_same frame _ _ sh); [exact L|]. eapply assign_keeps, A.
Qed.





(** *** Instructions *)

Lemma nth_error_lookup {A} (l : list A) : forall n, nth_error l n = l !! n.
Proof. induction l as [|a l IH]; intros [|n]; cbn; auto. Qed.

Lemma getitem_lookup {A} (xs : list A) (i : Z) :
  0 <= i < len xs -> exists x, xs !! Z.to_nat i = Some x /\ getitem xs i = ([], Ok x).
Proof.
  intros [Hlo Hhi]. unfold getitem.
  destruct (Z.ltb_spec i 0) as [?|_]; [lia|].
  destruct (Z.ltb_spec i 0) as [?|_]; [lia|].
  rewrite nth_error_lookup.
  destruct (xs !! Z.to_nat i) as [x|] eqn:E; [now exists x|].
  apply lookup_ge_None in E. unfold len in Hhi. lia.
Qed.



(** An instruction that returns keeps the frame of the document. *)
Lemma apply_slide_update_keeps prs u out prs' :
  apply_slide_update prs u = (out, Ok prs') -> document_frame prs' = document_frame prs.
Proof.
  unfold apply_slide_update.
  destruct (slide_index u) as [i|]; [|now intros [= _ <-]].
  destruct (Z.ltb_spec i 0) as [?|Hlo]; cbn [orb]; [now intros [= _ <-]|].
  destruct (Z.geb_spec i (len (slides prs))) as [?|Hhi]; [now intros [= _ <-]|].
  destruct (getitem_lookup (slides prs) i) as (sl & L & ->); [lia|]. cbn [bind].
  destruct (for_each apply_placeholder_update (updates u) sl) as [o [sl'|e]] eqn:E;
    cbn; [|discriminate].
  intros [= _ <-]. unfold document_frame. cbn. f_equal.
  apply (map_insert_same slide_frame _ _ sl); [exact L|].
  clear -E. revert sl o E. induction (updates u) as [|pu pus IH]; intros sl o E.
  - cbn in E. now injection E as _ <-.
  - cbn [for_each] in E.
    destruct (apply_placeholder_update sl pu) as [o1 [s1|e1]] eqn:E1; [|discriminate E].
    cbn [bind] in E.
    destruct (for_each apply_placeholder_update pus s1) as [o2 r2] eqn:E2.
    injection E as _ ->. rewrite (IH s1 o2 E2).
    eapply apply_placeholder_update_keeps, E1.
Qed.








(** The sample batch on the one-slide document: the body placeholder is
    rewritten, four warnings are printed, and the call succeeds. *)
Example batch_run :
  update_powerpoint_file (Ok one_slide_deck) (fun _ => true) batch =
  ([WarnNoPlaceholder 9; WarnMissingIdxOrText; WarnInvalidSlideIndex 5; WarnNoSlideIndex],
   {| success := true; saved := Some updated_deck |}).
Proof. vm_compute. reflexivity. Qed.

(** With a text box ahead of the placeholder the search raises before it
    reaches the placeholder, and the call returns [False]. *)
Example text_box_stops_the_search :
  update_powerpoint_file (Ok text_box_deck) (fun _ => true) batch =
  ([ErrorUpdating (ValueError (lit "shape is not a placeholder"))],
   {| success := false; saved := None |}).
Proof. vm_compute. reflexivity. Qed.

End UpdateFacts.

(** * Further properties *)

(** ** The content fit analyzer, step by step *)

Module FitSteps.
Import Py Fit FitFacts.

Section WithUnicode.
Context `{U : Unicode}.

(** *** The bullet counters *)

Lemma fold_scan_total lines : forall s,
  left_bullets (fold_left scan_line lines s) + right_bullets (fold_left scan_line lines s)
  = left_bullets s + right_bullets s + len (List.filter counted lines).
Proof.
  induction lines as [|l ls IH]; intros s; cbn [fold_left List.filter].
  - unfold len. cbn. lia.
  - rewrite IH, scan_line_counts. destruct (counted l); unfold len; cbn [length]; lia.
Qed.

Lemma scan_line_nonneg s line :
  0 <= left_bullets s -> 0 <= right_bullets s ->
  0 <= left_bullets (scan_line s line) /\ 0 <= right_bullets (scan_line s line).
Proof.
  intros Hl Hr. unfold scan_line.
  destruct (has_left_marker line); cbn; [lia|].
  destruct (has_right_marker line); cbn; [lia|].
  destruct (is_bullet _ || is_numbered _); cbn; [|lia].
  destruct (in_right_column s); cbn; lia.
Qed.

Lemma fold_scan_nonneg lines : forall s,
  0 <= left_bullets s -> 0 <= right_bullets s ->
  0 <= left_bullets (fold_left scan_line lines s)
  /\ 0 <= right_bullets (fold_left scan_line lines s).
Proof.
  induction lines as [|l ls IH]; intros s Hl Hr; cbn [fold_left]; [lia|].
  destruct (scan_line_nonneg s l Hl Hr). now apply IH.
Qed.

(** Before any marker, and under a left marker, bullets go to the left
    counter: the right counter only moves after a right marker. *)
Lemma fold_scan_no_right_marker lines : forall s,
  in_right_column s = false ->
  Forall (fun l => has_left_marker l = true \/ has_right_marker l = false) lines ->
  right_bullets (fold_left scan_line lines s) = right_bullets s
  /\ in_right_column (fold_left scan_line lines s) = false.
Proof.
  induction lines as [|l ls IH]; intros s Hs Hall; cbn [fold_left]; [now split|].
  inversion Hall as [|? ? Hl Hls]; subst.
  assert (H : right_bullets (scan_line s l) = right_bullets s
              /\ in_right_column (scan_line s l) = false).
  { unfold scan_line. destruct (has_left_marker l); [now split|].
    destruct Hl as [Hl|Hl]; [discriminate|]. rewrite Hl.
    destruct (is_bullet _ || is_numbered _); [|now split].
    rewrite Hs. now split. }
  destruct H as [H1 H2]. destruct (IH (scan_line s l) H2 Hls) as [H3 H4].
  split; [congruence|exact H4].
Qed.

(** X4: when the loop ends the two counters add up to the number of
    counted lines; neither is negative; and without a right marker every
    counted line is in the left counter. *)
Theorem bullet_counters (lines : list str) :
  let s := count_bullets lines in
  left_bullets s + right_bullets s = len (List.filter counted lines)
  /\ 0 <= left_bullets s
  /\ 0 <= right_bullets s
  /\ (existsb has_right_marker lines = false ->
      right_bullets s = 0 /\ left_bullets s = len (List.filter counted lines)).
Proof.
  intros s. subst s. unfold count_bullets.
  pose proof (fold_scan_total lines scan0) as Ht. cbn [scan0 left_bullets right_bullets] in Ht.
  destruct (fold_scan_nonneg lines scan0) as [Hl Hr]; [cbn; lia|cbn; lia|].
  split; [lia|]. split; [exact Hl|]. split; [exact Hr|].
  intros Hno.
  destruct (fold_scan_no_right_marker lines scan0) as [H1 _]; [reflexivity| |].
  - apply Forall_forall. intros l Hin. right.
    destruct (has_right_marker l) eqn:E; [|reflexivity].
    assert (existsb has_right_marker lines = true)
      by (apply existsb_exists; exists l; split; [now apply list_elem_of_In|exact E]).
    congruence.
  - cbn [scan0 right_bullets] in H1. split; [exact H1|lia].
Qed.

End WithUnicode.

Lemma bullet_counters_witness :
  let lines := split newline (strip Samples.twenty_bullets) in
  right_bullets (count_bullets (U := ascii_tables) lines) = 0
  /\ left_bullets (count_bullets (U := ascii_tables) lines) = 20.
Proof.
  destruct (bullet_counters (U := ascii_tables) (split newline (strip Samples.twenty_bullets)))
    as (_ & _ & _ & H).
  destruct H as [H1 H2]; [reflexivity|]. split; [exact H1|]. rewrite H2. reflexivity.
Defined.

(** *** Each check either fires or does nothing *)

Lemma fires_compose t t' f g :
  fires t f -> fires t' g -> fires (t || t') (fun a => g (f a)).
Proof.
  intros Hf Hg a. specialize (Hf a). specialize (Hg (f a)).
  destruct t, t'; cbn [orb] in *; cbv iota in *.
  - destruct Hf, Hg. split; [assumption|lia].
  - rewrite Hg. exact Hf.
  - rewrite Hf in Hg |- *. exact Hg.
  - rewrite Hg. exact Hf.
Qed.

Lemma warn_not_nil msg a : warnings_so_far (warn msg a) <> [].
Proof. cbn. destruct (warnings_so_far a); discriminate. Qed.

Ltac fired :=
  split;
  [ repeat match goal with |- context [if ?c then _ else _] => destruct c end;
    apply warn_not_nil
  | repeat match goal with |- context [if ?c then _ else _] => destruct c end;
    cbn [complexity_score suggest add_score warn]; lia ].

Lemma fires_total_lines n m : fires (n >? m) (check_total_lines n m).
Proof.
  intros a. unfold check_total_lines.
  destruct (Z.gtb_spec n m); [|reflexivity]. fired.
Qed.

Lemma fires_total_bullets t m : fires (t >? m * 2) (check_total_bullets t m).
Proof.
  intros a. unfold check_total_bullets.
  destruct (Z.gtb_spec t (m * 2)); [|reflexivity]. fired.
Qed.

Lemma fires_single_column t m :
  fires (t >? m) (fun a => if t >? m then check_single_column t m a else a).
Proof.
  intros a. unfold check_single_column.
  destruct (Z.gtb_spec t m); [|reflexivity]. fired.
Qed.

Section WithUnicode2.
Context `{U : Unicode}.

Lemma fires_title lines m :
  fires (match lines with l0 :: _ => len (split_ws l0) >? m | [] => false end)
    (check_title lines m).
Proof.
  intros a. unfold check_title. destruct lines as [|l0 rest]; [reflexivity|].
  destruct (Z.gtb_spec (len (split_ws l0)) m); [|reflexivity]. fired.
Qed.

Lemma filter_nil_existsb {A} (p : A -> bool) l :
  existsb p l = match List.filter p l with [] => false | _ :: _ => true end.
Proof.
  induction l as [|x l IH]; [reflexivity|]. cbn. destruct (p x); [reflexivity|exact IH].
Qed.

Lemma fires_long_lines lines m :
  fires (existsb (fun line => len line >? m) lines) (check_long_lines lines m).
Proof.
  intros a. unfold check_long_lines. rewrite filter_nil_existsb.
  destruct (List.filter _ lines) as [|l ls]; [reflexivity|].
  split.
  - destruct (_ >? 2); apply warn_not_nil.
  - destruct (_ >? 2); cbn [complexity_score suggest add_score warn];
      unfold len; cbn [length]; lia.
Qed.

Lemma fires_columns lines m :
  fires (len (List.filter counted lines) >? m) (check_columns (count_bullets lines) m).
Proof.
  intros a. rewrite check_columns_single. cbv zeta.
  destruct (bullet_counters lines) as (-> & _).
  apply fires_single_column.
Qed.

(** Which checks fire on the given lines. *)
Lemma fires_score lines max_title_words max_lines max_bullets_per_column max_chars_per_line :
  let total := len (List.filter counted lines) in
  let t :=
    (match lines with l0 :: _ => len (split_ws l0) >? max_title_words | [] => false end)
    || existsb (fun line => len line >? max_chars_per_line) lines
    || (total >? max_bullets_per_column * 2)
    || (total >? max_bullets_per_column)
    || (len lines >? max_lines) in
  if t
  then warnings_so_far (score lines max_title_words max_lines max_bullets_per_column
                          max_chars_per_line) <> []
       /\ 0 < complexity_score (score lines max_title_words max_lines
                                  max_bullets_per_column max_chars_per_line)
  else score lines max_title_words max_lines max_bullets_per_column max_chars_per_line
       = {| warnings_so_far := []; complexity_score := 0; sizes := no_sizes |}.
Proof.
  intros total t.
  pose proof (fires_compose _ _ _ _
    (fires_compose _ _ _ _
      (fires_compose _ _ _ _
        (fires_compose _ _ _ _
           (fires_title lines max_title_words)
           (fires_long_lines lines max_chars_per_line))
        (fires_total_bullets total max_bullets_per_column))
      (fires_columns lines max_bullets_per_column))
    (fires_total_lines (len lines) max_lines)) as H.
  specialize (H {| warnings_so_far := []; complexity_score := 0; sizes := no_sizes |}).
  cbv beta in H. fold t in H.
  unfold score. destruct (bullet_counters lines) as (-> & _). fold total.
  exact H.
Qed.

Lemma existsb_false_Forall {A} (p : A -> bool) l :
  existsb p l = false <-> Forall (fun x => p x = false) l.
Proof.
  induction l as [|x l IH]; cbn.
  - split; [constructor|reflexivity].
  - rewrite orb_false_iff, IH. split.
    + intros [? ?]. now constructor.
    + intros H. inversion H; subst. now split.
Qed.

(** *** The result as a whole *)

(** X2: content that is not blank fits exactly when the first line has
    at most [max_title_words] words, no line is longer than
    [max_chars_per_line], at most [max_bullets_per_column] lines are
    counted as bullets, and there are at most [max_lines] lines. *)
Theorem fits_iff_within_limits
    (content : str) (max_title_words max_lines max_bullets_per_column max_chars_per_line : Z) :
  strip content <> [] ->
  let lines := split newline (strip content) in
  fits (check_content_fit content max_title_words max_lines max_bullets_per_column
          max_chars_per_line) = true
  <-> (forall l0, head lines = Some l0 -> len (split_ws l0) <= max_title_words)
      /\ Forall (fun l => len l <= max_chars_per_line) lines
      /\ len (List.filter counted lines) <= max_bullets_per_column
      /\ len lines <= max_lines.
Proof.
  intros Hne lines. unfold check_content_fit.
  destruct (strip content) as [|c rest] eqn:E; [congruence|]. fold lines. cbn [fits].
  pose proof (fires_score lines max_title_words max_lines max_bullets_per_column
                max_chars_per_line) as H. cbv zeta in H.
  set (total := len (List.filter counted lines)) in *.
  assert (Htot : 0 <= total) by (unfold total, len; lia).
  match type of H with if ?t then _ else _ => destruct t eqn:T end.
  - destruct H as [Hw _].
    destruct (warnings_so_far _); [congruence|].
    split; [discriminate|]. intros (H1 & H2 & H3 & H4). exfalso.
    rewrite !orb_true_iff in T. destruct T as [[[[T|T]|T]|T]|T].
    + destruct lines as [|l0 ls]; [discriminate|].
      specialize (H1 l0 eq_refl). apply Z.gtb_lt in T. lia.
    + apply existsb_exists in T as (ln & Hin & Hl).
      rewrite Forall_forall in H2. specialize (H2 ln (proj2 (list_elem_of_In _ _) Hin)).
      apply Z.gtb_lt in Hl. lia.
    + apply Z.gtb_lt in T. lia.
    + apply Z.gtb_lt in T. lia.
    + apply Z.gtb_lt in T. lia.
  - rewrite H. cbn [warnings_so_far]. split; [intros _|reflexivity].
    rewrite !orb_false_iff in T. destruct T as [[[[T1 T2] T3] T4] T5].
    repeat split.
    + intros l0 Hl0. destruct lines as [|l1 ls]; [discriminate|].
      cbn in Hl0. injection Hl0 as ->. destruct (Z.gtb_spec (len (split_ws l0)) max_title_words);
        [discriminate|lia].
    + apply existsb_false_Forall in T2. eapply Forall_impl; [exact T2|].
      cbn. intros l Hl. destruct (Z.gtb_spec (len l) max_chars_per_line); [discriminate|lia].
    + destruct (Z.gtb_spec total max_bullets_per_column); [discriminate|lia].
    + destruct (Z.gtb_spec (len lines) max_lines); [discriminate|lia].
Qed.

(** X3: for every content, [fits] is true exactly when the complexity is
    0, and then no font size is suggested. *)
Theorem fits_iff_complexity_zero
    (content : str) (max_title_words max_lines max_bullets_per_column max_chars_per_line : Z) :
  let r := check_content_fit content max_title_words max_lines max_bullets_per_column
             max_chars_per_line in
  (fits r = true <-> content_complexity r = 0)
  /\ (fits r = true -> suggested_font_size r = no_sizes).
Proof.
  intros r. subst r. unfold check_content_fit.
  destruct (strip content) as [|c rest] eqn:E; cbn [fits content_complexity suggested_font_size].
  - split; [split|]; reflexivity.
  - pose proof (fires_score (split newline (c :: rest)) max_title_words max_lines
                  max_bullets_per_column max_chars_per_line) as H. cbv zeta in H.
    match type of H with if ?t then _ else _ => destruct t end.
    + destruct H as [Hw Hc]. destruct (warnings_so_far _); [congruence|].
      split; [split; [discriminate|lia]|discriminate].
    + rewrite H. cbn. split; [split|]; reflexivity.
Qed.

(** X1: the complexity reported is between 0 and 100. *)
Theorem complexity_in_range
    (content : str) (max_title_words max_lines max_bullets_per_column max_chars_per_line : Z) :
  0 <= content_complexity (check_content_fit content max_title_words max_lines
                             max_bullets_per_column max_chars_per_line) <= 100.
Proof.
  unfold check_content_fit.
  destruct (strip content) as [|c rest] eqn:E; cbn [content_complexity]; [lia|].
  pose proof (fires_score (split newline (c :: rest)) max_title_words max_lines
                max_bullets_per_column max_chars_per_line) as H. cbv zeta in H.
  match type of H with if ?t then _ else _ => destruct t end.
  - destruct H as [_ Hc]. lia.
  - rewrite H. cbn. lia.
Qed.

(** X5: the sizes suggested for content that is not blank. The title
    size depends on the words of the first line alone, the subtitle size
    on the number of lines alone; the body size is decided by the
    single-column rule whenever that rule fires, and by the long lines
    otherwise. *)
Theorem suggested_sizes
    (content : str) (max_title_words max_lines max_bullets_per_column max_chars_per_line : Z) :
  strip content <> [] ->
  let lines := split newline (strip content) in
  let title_words := len (split_ws (List.hd [] lines)) in
  let long_lines := len (List.filter (fun line => len line >? max_chars_per_line) lines) in
  let total_bullets := len (List.filter counted lines) in
  suggested_font_size (check_content_fit content max_title_words max_lines
                         max_bullets_per_column max_chars_per_line)
  = {| title := if title_words >? max_title_words + 5 then Some 28
                else if title_words >? max_title_words then Some 32 else None;
       subtitle := if len lines >? max_lines + 5 then Some 20 else None;
       body := if total_bullets >? max_bullets_per_column + 4 then Some 14
               else if total_bullets >? max_bullets_per_column then Some 16
               else if long_lines >? 2 then Some 16 else None |}.
Proof.
  intros Hne lines title_words long_lines total_bullets. unfold check_content_fit.
  destruct (strip content) as [|c rest] eqn:E; [congruence|]. fold lines.
  cbn [suggested_font_size]. unfold score.
  rewrite check_columns_single. cbv zeta.
  destruct (bullet_counters lines) as (-> & _). fold total_bullets.
  assert (Htot : 0 <= total_bullets) by (unfold total_bullets, len; lia).
  assert (Hlines : lines <> []) by apply split_not_nil.
  destruct lines as [|l0 ls]; [congruence|].
  cbn [List.hd] in title_words.
  unfold check_total_lines, check_single_column, check_total_bullets, check_long_lines,
    check_title.
  fold title_words. subst long_lines.
  set (lines := l0 :: ls) in *.
  clearbody total_bullets title_words.
  destruct (List.filter (fun line => len line >? max_chars_per_line) lines) as [|x xs];
    repeat match goal with
           | |- context [if ?a >? ?b then _ else _] => destruct (Z.gtb_spec a b)
           end;
    try reflexivity; try (exfalso; unfold len in *; cbn [length] in *; lia).
Qed.

End WithUnicode2.

Lemma fits_iff_within_limits_witness :
  fits (check_content_fit (U := ascii_tables) Samples.two_columns 10 15 8 80) = true.
Proof.
  apply (fits_iff_within_limits (U := ascii_tables) Samples.two_columns 10 15 8 80).
  - vm_compute. discriminate.
  - vm_compute. repeat split; try discriminate.
    + intros l0 H. injection H as <-. discriminate.
    + repeat constructor; discriminate.
Defined.

Lemma suggested_sizes_witness :
  suggested_font_size (check_content_fit (U := ascii_tables) Samples.twenty_bullets 10 15 8 80)
  = {| title := None; subtitle := None; body := Some 14 |}.
Proof.
  rewrite (suggested_sizes (U := ascii_tables) Samples.twenty_bullets 10 15 8 80).
  - reflexivity.
  - vm_compute. discriminate.
Defined.

Lemma fits_iff_complexity_zero_witness :
  suggested_font_size (check_content_fit (U := ascii_tables) Samples.two_columns 10 15 8 80)
  = no_sizes.
Proof.
  pose proof (fits_iff_complexity_zero (U := ascii_tables) Samples.two_columns 10 15 8 80)
    as H.
  cbv zeta in H. destruct H as [_ H]. apply H. vm_compute. reflexivity.
Defined.

End FitSteps.

(** ** Layout resolution, case by case *)

Module ResolveFacts.
Import Py Eff Pptx Fit AddSlide AddSlideFacts Samples.

Section WithUnicode.
Context `{U : Unicode} `{C : Cloning}.

(** The two loops visit the layouts in master-then-layout order. *)
Lemma find_in_masters_flat p masters :
  find_in_masters p masters = List.find p (flat_map slide_layouts masters).
Proof.
  induction masters as [|m ms IH]; [reflexivity|]. cbn [find_in_masters flat_map].
  rewrite IH. generalize (slide_layouts m). intros ls.
  induction ls as [|l ls IHl]; [reflexivity|]. cbn. destruct (p l); [reflexivity|exact IHl].
Qed.

Lemma find_first (p : slide_layout -> bool) pre l post :
  Forall (fun x => p x = false) pre -> p l = true ->
  List.find p (pre ++ l :: post) = Some l.
Proof.
  induction pre as [|x pre IH]; intros Hpre Hl; cbn.
  - now rewrite Hl.
  - inversion Hpre; subst. rewrite H1. now apply IH.
Qed.

Lemma find_in_masters_some p masters l :
  find_in_masters p masters = Some l ->
  In l (flat_map slide_layouts masters) /\ p l = true.
Proof. rewrite find_in_masters_flat. apply find_some. Qed.

Lemma existsb_names_true name masters l :
  In l (flat_map slide_layouts masters) -> layout_name l = name ->
  existsb (str_eqb name) (List.map layout_name (flat_map slide_layouts masters)) = true.
Proof.
  intros Hin Hn. apply existsb_exists. exists name. split.
  - apply in_map_iff. now exists l.
  - unfold str_eqb. now apply bool_decide_eq_true.
Qed.

(** X6: when a layout carries exactly the requested name, the layout
    resolved is the first such one in master-then-layout order, in
    whichever master it sits; only the "using specified layout" line is
    printed. *)
Theorem exact_name_resolves
    (prs : presentation) (name : str) (pre post : list slide_layout) (l : slide_layout) :
  name <> [] ->
  flat_map slide_layouts (slide_masters prs) = pre ++ l :: post ->
  Forall (fun x => layout_name x <> name) pre ->
  layout_name l = name ->
  resolve_layout (Some name) prs = ([UsingSpecifiedLayout name], Ok l).
Proof.
  intros Hne Hall Hpre Hl.
  unfold resolve_layout, choose_layout_name, layouts_info.
  destruct name as [|c name']; [congruence|].
  rewrite (existsb_names_true (c :: name') (slide_masters prs) l);
    [|rewrite Hall; apply in_or_app; right; now left|exact Hl].
  cbn [bind print ret app]. unfold find_layout_object.
  rewrite find_in_masters_flat, Hall, (find_first _ pre l post).
  - reflexivity.
  - eapply Forall_impl; [exact Hpre|]. cbn. intros x Hx.
    unfold exact_match, str_eqb. now apply bool_decide_eq_false.
  - unfold exact_match, str_eqb. now apply bool_decide_eq_true.
Qed.

(** X7: when no layout carries the name exactly but some layout matches
    it once both are lowered, the first such layout is resolved, and the
    miss and the case-insensitive match are printed. *)
Theorem lowered_name_resolves
    (prs : presentation) (name : str) (pre post : list slide_layout) (l : slide_layout) :
  name <> [] ->
  flat_map slide_layouts (slide_masters prs) = pre ++ l :: post ->
  Forall (fun x => layout_name x <> name) (pre ++ l :: post) ->
  Forall (fun x => lower (layout_name x) <> lower name) pre ->
  lower (layout_name l) = lower name ->
  resolve_layout (Some name) prs =
  ([UsingSpecifiedLayout name; WarnLayoutNotFound name;
    CaseInsensitiveMatch name (layout_name l)], Ok l).
Proof.
  intros Hne Hall Hexact Hpre Hl.
  unfold resolve_layout, choose_layout_name, layouts_info.
  destruct name as [|c name']; [congruence|].
  rewrite existsb_names_false.
  2:{ intros x Hx. rewrite Hall in Hx. rewrite Forall_forall in Hexact.
      apply Hexact. now apply list_elem_of_In. }
  cbn [bind print ret app]. unfold find_layout_object.
  rewrite (find_in_masters_none (exact_match (c :: name'))).
  2:{ intros x Hx. rewrite Hall in Hx. rewrite Forall_forall in Hexact.
      unfold exact_match, str_eqb. apply bool_decide_eq_false.
      apply Hexact. now apply list_elem_of_In. }
  cbn [truthy]. rewrite find_in_masters_flat, Hall, (find_first _ pre l post).
  - reflexivity.
  - eapply Forall_impl; [exact Hpre|]. cbn. intros x Hx.
    unfold case_insensitive_match, str_eqb. now apply bool_decide_eq_false.
  - unfold case_insensitive_match, str_eqb. now apply bool_decide_eq_true.
Qed.

(** The three ways a named request ends. *)
Lemma resolve_named_cases (prs : presentation) (name : str) :
  name <> [] ->
  exists out,
    (exists l, resolve_layout (Some name) prs = (out, Ok l)
               /\ In l (flat_map slide_layouts (slide_masters prs))
               /\ (layout_name l = name \/ lower (layout_name l) = lower name))
    \/ (find_in_masters (exact_match name) (slide_masters prs) = None
        /\ find_in_masters (case_insensitive_match name) (slide_masters prs) = None
        /\ resolve_layout (Some name) prs =
           (out, match slide_masters prs with
                 | m :: _ => match slide_layouts m with
                             | l :: _ => Ok l
                             | [] => Raise IndexError
                             end
                 | [] => Raise IndexError
                 end)).
Proof.
  intros Hne. destruct name as [|c name']; [congruence|].
  unfold resolve_layout, choose_layout_name.
  destruct (existsb _ _); cbn [bind print ret app]; unfold find_layout_object;
    (destruct (find_in_masters (exact_match (c :: name')) (slide_masters prs)) as [l|] eqn:E1;
     [ apply find_in_masters_some in E1 as [Hin Hp];
       unfold exact_match, str_eqb in Hp; apply bool_decide_eq_true in Hp;
       eexists; left; exists l; cbn; split; [reflexivity|split; [exact Hin|now left]]
     | cbn [truthy];
       destruct (find_in_masters (case_insensitive_match (c :: name')) (slide_masters prs))
         as [l|] eqn:E2;
       [ apply find_in_masters_some in E2 as [Hin Hp];
         unfold case_insensitive_match, str_eqb in Hp; apply bool_decide_eq_true in Hp;
         eexists; left; exists l; cbn; split; [reflexivity|split; [exact Hin|now right]]
       | eexists; right; split; [reflexivity|split; [reflexivity|]];
         unfold first_master_layouts;
         destruct (slide_masters prs) as [|m ms]; [reflexivity|];
         destruct (slide_layouts m) as [|l ls]; reflexivity ] ]).
Qed.

(** X8: whatever is asked for, a layout that is resolved is one of the
    layouts of the document. *)
Theorem resolved_layout_is_of_document
    (slide_type : option str) (prs : presentation) (out : list diag) (l : slide_layout) :
  resolve_layout slide_type prs = (out, Ok l) ->
  In l (flat_map slide_layouts (slide_masters prs)).
Proof.
  intros H. destruct slide_type as [[|c name']|]; try discriminate H.
  destruct (resolve_named_cases prs (c :: name')) as [out' [(l' & R & Hin & _)|(_ & _ & R)]];
    [discriminate| |]; rewrite R in H.
  - injection H as _ <-. exact Hin.
  - destruct (slide_masters prs) as [|m ms]; [discriminate H|].
    destruct (slide_layouts m) as [|l0 ls] eqn:E; [discriminate H|].
    injection H as _ <-. cbn. rewrite E. now left.
Qed.

(** X9: a request by name never fails on a document whose first master
    has a layout: some layout of the document is resolved, and its name
    is the requested one, or equals it once both are lowered, or it is
    the first layout of the first master. *)
Theorem named_request_resolves
    (prs : presentation) (name : str) (m : slide_master) (ms : list slide_master)
    (l0 : slide_layout) (ls : list slide_layout) :
  name <> [] ->
  slide_masters prs = m :: ms ->
  slide_layouts m = l0 :: ls ->
  exists out l,
    resolve_layout (Some name) prs = (out, Ok l)
    /\ In l (flat_map slide_layouts (slide_masters prs))
    /\ (layout_name l = name \/ lower (layout_name l) = lower name \/ l = l0).
Proof.
  intros Hne Hm Hl.
  destruct (resolve_named_cases prs name Hne) as [out [(l & R & Hin & Hn)|(_ & _ & R)]].
  - exists out, l. split; [exact R|]. split; [exact Hin|]. tauto.
  - rewrite Hm, Hl in R. exists out, l0. split; [exact R|].
    split; [|now right; right]. rewrite Hm. cbn. rewrite Hl. now left.
Qed.

(** X10: the fallback looks at the first master only. When the name
    matches nothing and the first master has no layout (or there is no
    master), indexing raises [IndexError] and the call returns [None],
    also when a later master has layouts. *)
Theorem fallback_needs_first_master_layout
    (prs : presentation) (name : str) (can_save : presentation -> bool)
    (content : str) (comments : option str) (check_fit : bool) :
  name <> [] ->
  (forall l, In l (flat_map slide_layouts (slide_masters prs)) ->
     layout_name l <> name /\ lower (layout_name l) <> lower name) ->
  match slide_masters prs with
  | m :: _ => slide_layouts m = []
  | [] => True
  end ->
  exists out,
    resolve_layout (Some name) prs = (out, Raise IndexError)
    /\ add_slide_from_blob_url (Ok prs) can_save content (Some name) comments check_fit
       = (out ++ [ErrorAddingSlide IndexError], None).
Proof.
  intros Hne Hno Hfirst.
  destruct (resolve_named_cases prs name Hne) as [out [(l & R & Hin & Hn)|(_ & _ & R)]].
  - destruct (Hno l Hin). tauto.
  - exists out.
    assert (R' : resolve_layout (Some name) prs = (out, Raise IndexError)).
    { rewrite R. destruct (slide_masters prs) as [|m ms]; [reflexivity|].
      now rewrite Hfirst. }
    split; [exact R'|].
    unfold add_slide_from_blob_url, add_slide. cbn [bind app]. rewrite R'. reflexivity.
Qed.

End WithUnicode.

Lemma exact_name_resolves_witness :
  resolve_layout (U := ascii_tables) (Some (lit "Content")) deck
  = ([UsingSpecifiedLayout (lit "Content")], Ok body_only_layout).
Proof.
  apply (exact_name_resolves (U := ascii_tables) deck (lit "Content")
           [title_layout] [] body_only_layout).
  - discriminate.
  - reflexivity.
  - repeat constructor. vm_compute. discriminate.
  - reflexivity.
Defined.

Lemma lowered_name_resolves_witness :
  resolve_layout (U := ascii_tables) (Some (lit "content")) deck
  = ([UsingSpecifiedLayout (lit "content"); WarnLayoutNotFound (lit "content");
      CaseInsensitiveMatch (lit "content") (lit "Content")], Ok body_only_layout).
Proof.
  apply (lowered_name_resolves (U := ascii_tables) deck (lit "content")
           [title_layout] [] body_only_layout).
  - discriminate.
  - reflexivity.
  - repeat constructor; vm_compute; discriminate.
  - repeat constructor. vm_compute. discriminate.
  - reflexivity.
Defined.

Lemma resolved_layout_is_of_document_witness :
  In body_only_layout (flat_map slide_layouts (slide_masters deck)).
Proof.
  apply (resolved_layout_is_of_document (U := ascii_tables) (Some (lit "Content")) deck
           [UsingSpecifiedLayout (lit "Content")] body_only_layout).
  reflexivity.
Defined.

Lemma named_request_resolves_witness :
  exists out l,
    resolve_layout (U := ascii_tables) (Some (lit "Agenda")) deck = (out, Ok l)
    /\ In l (flat_map slide_layouts (slide_masters deck))
    /\ (layout_name l = lit "Agenda"
        \/ lower (Unicode := ascii_tables) (layout_name l)
           = lower (Unicode := ascii_tables) (lit "Agenda")
        \/ l = title_layout).
Proof.
  apply (named_request_resolves (U := ascii_tables) deck (lit "Agenda")
           {| slide_layouts := [title_layout; body_only_layout] |} []
           title_layout [body_only_layout]).
  - discriminate.
  - reflexivity.
  - reflexivity.
Defined.

Lemma fallback_needs_first_master_layout_witness :
  exists out,
    resolve_layout (U := ascii_tables) (Some (lit "Agenda")) empty_first_master_deck
      = (out, Raise IndexError)
    /\ add_slide_from_blob_url (U := ascii_tables) (C := numbered_names)
         (Ok empty_first_master_deck) (fun _ => true) two_columns (Some (lit "Agenda"))
         None true
       = (out ++ [ErrorAddingSlide IndexError], None).
Proof.
  apply (fallback_needs_first_master_layout (U := ascii_tables) (C := numbered_names)
           empty_first_master_deck
           (lit "Agenda") (fun _ => true) two_columns None true).
  - discriminate.
  - intros l Hin. cbn in Hin. destruct Hin as [<-|[]]. split; vm_compute; discriminate.
  - reflexivity.
Defined.

End ResolveFacts.

(** ** Listing the layouts *)

Module LayoutsFacts.
Import Py Eff Pptx AddSlide Layouts ResolveFacts Samples.

Section WithTypeNames.
Variable type_name : Z -> str.

Lemma master_infos_names i ls :
  List.map info_layout_name (master_infos type_name i ls) = List.map layout_name ls.
Proof.
  revert i. induction ls as [|l ls IH]; intros i; [reflexivity|].
  cbn. now rewrite IH.
Qed.

Lemma master_infos_index i ls :
  List.map index (master_infos type_name i ls)
  = List.map (fun k => i + Z.of_nat k) (seq 0 (length ls)).
Proof.
  revert i. induction ls as [|l ls IH]; intros i; [reflexivity|].
  cbn [master_infos List.map length seq index]. f_equal; [lia|].
  rewrite IH, <- seq_shift, List.map_map. apply List.map_ext. intros k. lia.
Qed.

Lemma master_infos_count i ls :
  Forall (fun info => placeholder_count info = len (info_placeholders info))
    (master_infos type_name i ls).
Proof.
  revert i. induction ls as [|l ls IH]; intros i; constructor; [reflexivity|apply IH].
Qed.

(** X11: the listing has one entry per layout, in master-then-layout
    order, with the layout's name; ['index'] is the position of the
    layout within its own master, so it starts again at 0 with each
    master; ['placeholder_count'] is the length of ['placeholders'].
    When the file cannot be downloaded or opened the listing, and the
    list of names, is empty. *)
Theorem layouts_listing (prs : presentation) :
  let infos := get_powerpoint_layouts type_name (Ok prs) in
  List.map info_layout_name infos
    = List.map layout_name (flat_map slide_layouts (slide_masters prs))
  /\ List.map index infos
     = flat_map (fun m => List.map Z.of_nat (seq 0 (length (slide_layouts m))))
         (slide_masters prs)
  /\ Forall (fun info => placeholder_count info = len (info_placeholders info)) infos
  /\ (forall e, get_powerpoint_layouts type_name (Raise e) = [])
  /\ (forall error open_file,
        get_layout_names_from_blob_url type_name (DownloadFailed error) open_file = [])
  /\ (forall local_path open_file e,
        open_file local_path = Raise e ->
        get_layout_names_from_blob_url type_name (Downloaded local_path) open_file = []).
Proof.
  cbn zeta. unfold get_powerpoint_layouts.
  split; [|split; [|split; [|split; [reflexivity|split; [reflexivity|]]]]].
  - induction (slide_masters prs) as [|m ms IH]; [reflexivity|].
    cbn [flat_map]. rewrite !List.map_app, IH, master_infos_names. reflexivity.
  - induction (slide_masters prs) as [|m ms IH]; [reflexivity|].
    cbn [flat_map]. rewrite List.map_app, IH, master_infos_index. reflexivity.
  - induction (slide_masters prs) as [|m ms IH]; [constructor|].
    cbn [flat_map]. apply Forall_app. split; [apply master_infos_count|exact IH].
  - intros local_path open_file e H.
    unfold get_layout_names_from_blob_url, get_powerpoint_layouts_from_blob_url.
    rewrite H. reflexivity.
Qed.

Lemma first_with_name (name : str) (ls : list slide_layout) :
  In name (List.map layout_name ls) ->
  exists pre l post,
    ls = pre ++ l :: post /\ layout_name l = name
    /\ Forall (fun x => layout_name x <> name) pre.
Proof.
  induction ls as [|x ls IH]; intros Hin; [destruct Hin|].
  destruct (decide (layout_name x = name)) as [E|N].
  - exists [], x, ls. repeat split; [exact E|constructor].
  - destruct Hin as [E|Hin]; [congruence|].
    destruct (IH Hin) as (pre & l & post & -> & Hl & Hpre).
    exists (x :: pre), l, post. repeat split; [exact Hl|now constructor].
Qed.

Section WithUnicode.
Context `{U : Unicode}.

(** X12: every non-empty name that [get_layout_names_from_blob_url]
    returns for a file is resolved by [add_slide_from_blob_url] on that
    file to a layout with exactly that name, without warning or
    fallback. *)
Theorem listed_name_resolves
    (local_path : str) (open_file : str -> result presentation) (prs : presentation)
    (name : str) :
  open_file local_path = Ok prs ->
  In name (get_layout_names_from_blob_url type_name (Downloaded local_path) open_file) ->
  name <> [] ->
  exists l,
    resolve_layout (Some name) prs = ([UsingSpecifiedLayout name], Ok l)
    /\ layout_name l = name.
Proof.
  intros Hopen Hin Hne.
  unfold get_layout_names_from_blob_url, get_powerpoint_layouts_from_blob_url in Hin.
  rewrite Hopen in Hin.
  destruct (layouts_listing prs) as (Hnames & _). cbv zeta in Hnames.
  rewrite Hnames in Hin.
  destruct (first_with_name name _ Hin) as (pre & l & post & Hall & Hl & Hpre).
  exists l. split; [|exact Hl].
  now apply (exact_name_resolves prs name pre post l).
Qed.

End WithUnicode.
End WithTypeNames.

Lemma listed_name_resolves_witness :
  exists l,
    resolve_layout (U := ascii_tables) (Some (lit "Content")) deck
      = ([UsingSpecifiedLayout (lit "Content")], Ok l)
    /\ layout_name l = lit "Content".
Proof.
  apply (listed_name_resolves (fun _ => lit "PLACEHOLDER") (U := ascii_tables)
           (lit "deck.pptx") (fun _ => Ok deck) deck (lit "Content")).
  - reflexivity.
  - vm_compute. right. left. reflexivity.
  - discriminate.
Defined.

Lemma layouts_listing_witness :
  get_layout_names_from_blob_url (fun _ => lit "PLACEHOLDER")
    (Downloaded (lit "deck.pptx")) (fun _ => Raise (TransportError (lit "open"))) = [].
Proof.
  pose proof (layouts_listing (fun _ => lit "PLACEHOLDER") Samples.deck) as H.
  cbv zeta in H. destruct H as (_ & _ & _ & _ & _ & H).
  apply (H _ _ (TransportError (lit "open"))). reflexivity.
Defined.

End LayoutsFacts.

(** ** Transport helpers *)

Module TransportFacts.
Import Py Eff Pptx Layouts Client BlobUpdate Samples.

(** *** Stripping *)

Lemma lstrip_non_space s : lstrip s = s -> match s with [] => True | c :: _ => isspace c = false end.
Proof.
  destruct s as [|c r]; [trivial|]. cbn. destruct (isspace c) eqn:E; [|reflexivity].
  intros H. exfalso.
  assert (Hlen : forall l, (length (lstrip l) <= length l)%nat).
  { induction l as [|x l IH]; cbn; [lia|]. destruct (isspace x); cbn; lia. }
  specialize (Hlen r). rewrite H in Hlen. cbn in Hlen. lia.
Qed.

Lemma lstrip_fixed s :
  match s with [] => True | c :: _ => isspace c = false end -> lstrip s = s.
Proof. destruct s as [|c r]; [reflexivity|]. cbn. now intros ->. Qed.

Lemma lstrip_idem s : lstrip (lstrip s) = lstrip s.
Proof.
  induction s as [|c r IH]; [reflexivity|]. cbn.
  destruct (isspace c) eqn:E; [exact IH|]. cbn. now rewrite E.
Qed.

Lemma lstrip_snoc l a : isspace a = false -> lstrip (l ++ [a]) = lstrip l ++ [a].
Proof.
  intros Ha. induction l as [|c r IH]; cbn; [now rewrite Ha|].
  destruct (isspace c); [exact IH|reflexivity].
Qed.

(** What [strip] returns has no white space at either end. *)
Lemma strip_trimmed s :
  lstrip (strip s) = strip s /\ lstrip (rev (strip s)) = rev (strip s).
Proof.
  unfold strip, rstrip. split.
  - pose proof (lstrip_non_space (lstrip s) (lstrip_idem s)) as H.
    destruct (lstrip s) as [|a r]; [reflexivity|].
    cbn [rev]. rewrite (lstrip_snoc _ a H), rev_app_distr. cbn. now rewrite H.
  - rewrite rev_involutive. apply lstrip_idem.
Qed.

Lemma strip_fixed s : lstrip s = s -> lstrip (rev s) = rev s -> strip s = s.
Proof.
  intros H1 H2. unfold strip, rstrip. rewrite H1, H2. apply rev_involutive.
Qed.

(** *** Cleaning a URL *)

Lemma remove_char_rev c s : rev (remove_char c s) = remove_char c (rev s).
Proof.
  unfold remove_char. induction s as [|x s IH]; [reflexivity|].
  cbn [rev List.filter]. rewrite List.filter_app. cbn [List.filter].
  destruct (negb (x =? c)%N); cbn [rev]; rewrite IH; [reflexivity|now rewrite app_nil_r].
Qed.

Lemma remove_space_keeps_front c s :
  isspace c = true -> lstrip s = s -> lstrip (remove_char c s) = remove_char c s.
Proof.
  intros Hc H. apply lstrip_non_space in H. apply lstrip_fixed.
  destruct s as [|a r]; [exact I|]. unfold remove_char. cbn.
  destruct (N.eqb_spec a c) as [->|_]; [congruence|]. cbn. exact H.
Qed.

Lemma remove_char_absent c s : Forall (fun x => x <> c) (remove_char c s).
Proof.
  unfold remove_char. apply Forall_forall. intros x Hx.
  apply list_elem_of_In, filter_In in Hx as [_ Hx].
  destruct (N.eqb_spec x c); [discriminate|assumption].
Qed.

Lemma remove_char_fixed c s : Forall (fun x => x <> c) s -> remove_char c s = s.
Proof.
  unfold remove_char. induction 1 as [|x s Hx _ IH]; [reflexivity|]. cbn.
  destruct (N.eqb_spec x c); [contradiction|]. cbn. now rewrite IH.
Qed.

Lemma remove_char_keeps c d s :
  Forall (fun x => x <> c) s -> Forall (fun x => x <> c) (remove_char d s).
Proof.
  intros H. unfold remove_char. apply Forall_forall. intros x Hx.
  apply list_elem_of_In, filter_In in Hx as [Hx _].
  rewrite Forall_forall in H. apply H. now apply list_elem_of_In.
Qed.

(** X13: a cleaned URL holds no line feed and no carriage return, has no
    white space at either end, and cleaning it again changes nothing. *)
Theorem clean_url_is_clean (url : str) :
  Forall (fun c => c <> newline /\ c <> carriage_return) (clean_url url)
  /\ strip (clean_url url) = clean_url url
  /\ clean_url (clean_url url) = clean_url url.
Proof.
  assert (Hn : Forall (fun x => x <> newline) (clean_url url))
    by (apply remove_char_keeps, remove_char_absent).
  assert (Hr : Forall (fun x => x <> carriage_return) (clean_url url))
    by apply remove_char_absent.
  assert (Hs : strip (clean_url url) = clean_url url).
  { destruct (strip_trimmed url) as [H1 H2]. unfold clean_url. apply strip_fixed.
    - repeat apply remove_space_keeps_front; (reflexivity || exact H1).
    - rewrite !remove_char_rev.
      repeat apply remove_space_keeps_front; (reflexivity || exact H2). }
  split; [|split; [exact Hs|]].
  - rewrite Forall_forall in *. intros c Hc. split; [now apply Hn|now apply Hr].
  - unfold clean_url at 1. rewrite Hs.
    rewrite (remove_char_fixed newline) by exact Hn.
    now apply remove_char_fixed.
Qed.

(** *** The blob round trip *)

(** X14: [update_powerpoint_from_blob] never returns a success: the pair
    its [try] block is about to return never has [True] as first
    component, because the pair that [upload_pptx_to_blob] returns is
    always truthy when tested as an error; and the call itself always
    ends in the [TypeError] of awaiting [cleanup_temp_file], a plain
    function, in the [finally] block. *)
Theorem blob_update_never_succeeds
    (dl : download) (open_file : str -> result presentation)
    (can_save : presentation -> bool) (slide_updates : list Update.slide_update)
    (uploaded : bool * option str) :
  fst (try_block dl open_file can_save slide_updates uploaded) = false
  /\ (forall local_path,
        dl = Downloaded local_path ->
        Update.success
          (snd (Update.update_powerpoint_file (open_file local_path) can_save slide_updates))
        = true ->
        try_block dl open_file can_save slide_updates uploaded
        = (false, ErrorUploading uploaded))
  /\ exists what,
       update_powerpoint_from_blob dl open_file can_save slide_updates uploaded
       = Raises (TypeError what).
Proof.
  split; [|split].
  - unfold try_block. destruct dl; [|reflexivity].
    destruct (negb _); reflexivity.
  - intros local_path -> Hs. unfold try_block. rewrite Hs. reflexivity.
  - eexists. reflexivity.
Qed.

Lemma blob_update_never_succeeds_witness :
  try_block (Downloaded (lit "deck.pptx")) (fun _ => Ok one_slide_deck) (fun _ => true)
    batch (true, None)
  = (false, ErrorUploading (true, None)).
Proof.
  pose proof (blob_update_never_succeeds (Downloaded (lit "deck.pptx"))
                (fun _ => Ok one_slide_deck) (fun _ => true) batch (true, None)) as H.
  destruct H as (_ & H & _). apply (H (lit "deck.pptx")).
  - reflexivity.
  - vm_compute. reflexivity.
Defined.

End TransportFacts.

(** ** Batch update, shape by shape *)

Module UpdateSteps.
Import Py Eff Pptx Update UpdateView UpdateFacts Samples.

Lemma bind_ok {A B} (m : M A) (k : A -> M B) out b :
  bind m k = (out, Ok b) ->
  exists o1 a o2, m = (o1, Ok a) /\ k a = (o2, Ok b) /\ out = o1 ++ o2.
Proof.
  destruct m as [o1 [a|e]]; cbn; [|discriminate].
  destruct (k a) as [o2 r] eqn:E. intros [= <- ->]. now exists o1, a, o2.
Qed.


(** *** Two runs of a loop side by side *)

Section SideBySide.
Context {A S C V F : Type}.
Variable body : S -> A -> M S.
Variable get : S -> C -> option V.
Variable fr : S -> F.

(** If a step that returns from one state returns from every state with
    the same frame, printing the same lines, keeping both frames and
    leaving every cell either equal in both results or as it was in both
    states, then so does the loop. *)
Lemma for_each_side_by_side :
  (forall s1 s2 x out t1, fr s1 = fr s2 -> body s1 x = (out, Ok t1) ->
     exists t2,
       body s2 x = (out, Ok t2)
       /\ fr t1 = fr s1 /\ fr t2 = fr s2
       /\ forall c, get t1 c = get t2 c \/ (get t1 c = get s1 c /\ get t2 c = get s2 c)) ->
  forall xs s1 s2 out t1, fr s1 = fr s2 -> for_each body xs s1 = (out, Ok t1) ->
     exists t2,
       for_each body xs s2 = (out, Ok t2)
       /\ fr t1 = fr s1 /\ fr t2 = fr s2
       /\ forall c, get t1 c = get t2 c \/ (get t1 c = get s1 c /\ get t2 c = get s2 c).
Proof.
  intros Hbody. induction xs as [|x xs IH]; intros s1 s2 out t1 Hfr E; cbn [for_each] in *.
  - injection E as <- <-. exists s2. repeat split; auto.
  - apply bind_ok in E as (o1 & m1 & o2 & E1 & E2 & ->).
    destruct (Hbody s1 s2 x o1 m1 Hfr E1) as (m2 & E1' & F1 & F2 & Hc).
    destruct (IH m1 m2 o2 t1) as (t2 & E2' & G1 & G2 & Hc'); [congruence|exact E2|].
    exists t2. rewrite E1'. cbn [bind]. rewrite E2'.
    repeat split; try congruence.
    intros c. destruct (Hc' c) as [H|[H1 H2]]; [now left|].
    destruct (Hc c) as [H|[H3 H4]]; [left|right; split]; congruence.
Qed.

End SideBySide.

(** *** One inner update, one instruction *)

Lemma inner_side_by_side sl1 sl2 pu out t1 :
  slide_frame sl1 = slide_frame sl2 ->
  apply_placeholder_update sl1 pu = (out, Ok t1) ->
  exists t2,
    apply_placeholder_update sl2 pu = (out, Ok t2)
    /\ slide_frame t1 = slide_frame sl1 /\ slide_frame t2 = slide_frame sl2
    /\ forall k, shapes t1 !! k = shapes t2 !! k
                 \/ (shapes t1 !! k = shapes sl1 !! k /\ shapes t2 !! k = shapes sl2 !! k).
Proof.
  intros Hfr E.
  assert (Hk : forall t2, apply_placeholder_update sl2 pu = (out, Ok t2) ->
                          slide_frame t1 = slide_frame sl1 /\ slide_frame t2 = slide_frame sl2).
  { intros t2 E2. split; eapply apply_placeholder_update_keeps; eassumption. }
  injection Hfr as Hn Hs. revert E Hk. unfold apply_placeholder_update.
  destruct (placeholder_idx pu) as [wanted|];
    [|intros [= <- <-] Hk; exists sl2; split; [reflexivity|];
      destruct (Hk sl2 eq_refl); auto].
  destruct (new_text pu) as [s|];
    [|intros [= <- <-] Hk; exists sl2; split; [reflexivity|];
      destruct (Hk sl2 eq_refl); auto].
  pose proof (find_shape_frame wanted _ _ 0%nat Hs) as Hfind.
  destruct (find_shape wanted 0 (shapes sl1)) as [[[k sh1]|]|e1] eqn:F1,
           (find_shape wanted 0 (shapes sl2)) as [[[k2 sh2]|]|e2] eqn:F2;
    try contradiction; cbn [bind]; try discriminate.
  - destruct Hfind as [<- Hsh]. rewrite <- (assign_frame s _ sh1 sh2 Hsh).
    destruct (assign s (new_font_size pu) sh1) as [sh'|e]; cbn; [|discriminate].
    intros [= <- <-] Hk. eexists. split; [reflexivity|].
    destruct (Hk _ eq_refl) as [K1 K2]. split; [exact K1|]. split; [exact K2|].
    cbn [shapes with_shapes]. intros j.
    destruct (find_shape_found _ _ _ _ _ F1) as (_ & L1 & _).
    destruct (find_shape_found _ _ _ _ _ F2) as (_ & L2 & _).
    rewrite Nat.sub_0_r in L1, L2.
    destruct (decide (k = j)) as [<-|Hne].
    + left. rewrite !list_lookup_insert_eq; [reflexivity| |];
        eapply lookup_lt_Some; eassumption.
    + right. now rewrite !list_lookup_insert_ne.
  - cbn. intros [= <- <-] Hk. exists sl2. split; [reflexivity|].
    destruct (Hk sl2 eq_refl); auto.
Qed.

Lemma outer_side_by_side p1 p2 u out t1 :
  document_frame p1 = document_frame p2 ->
  apply_slide_update p1 u = (out, Ok t1) ->
  exists t2,
    apply_slide_update p2 u = (out, Ok t2)
    /\ document_frame t1 = document_frame p1 /\ document_frame t2 = document_frame p2
    /\ forall c : nat * nat,
         shape_at t1 c.1 c.2 = shape_at t2 c.1 c.2
         \/ (shape_at t1 c.1 c.2 = shape_at p1 c.1 c.2
             /\ shape_at t2 c.1 c.2 = shape_at p2 c.1 c.2).
Proof.
  intros Hfr E.
  assert (Hk : forall t2, apply_slide_update p2 u = (out, Ok t2) ->
                 document_frame t1 = document_frame p1
                 /\ document_frame t2 = document_frame p2).
  { intros t2 E2. split; eapply apply_slide_update_keeps; eassumption. }
  injection Hfr as Hm Hs. pose proof (map_length_same _ _ _ Hs) as Hlen.
  revert E Hk. unfold apply_slide_update.
  destruct (slide_index u) as [i|];
    [|intros [= <- <-] Hk; exists p2; split; [reflexivity|];
      destruct (Hk p2 eq_refl); auto].
  unfold len. rewrite Hlen.
  destruct (Z.ltb_spec i 0) as [?|Hlo]; cbn [orb];
    [intros [= <- <-] Hk; exists p2; split; [reflexivity|];
     destruct (Hk p2 eq_refl); auto|].
  destruct (Z.geb_spec i (Z.of_nat (length (slides p2)))) as [?|Hhi];
    [intros [= <- <-] Hk; exists p2; split; [reflexivity|];
     destruct (Hk p2 eq_refl); auto|].
  destruct (getitem_lookup (slides p1) i) as (sl1 & L1 & ->); [unfold len; lia|].
  destruct (getitem_lookup (slides p2) i) as (sl2 & L2 & ->); [unfold len; lia|].
  destruct (map_lookup_same slide_frame _ _ _ _ Hs L1) as (sl2' & L2' & Hsl).
  rewrite L2 in L2'. injection L2' as <-. cbn [bind].
  destruct (for_each apply_placeholder_update (updates u) sl1) as [o [r1|e]] eqn:E1;
    cbn; [|discriminate].
  destruct (for_each_side_by_side apply_placeholder_update
              (fun sl k => shapes sl !! k) slide_frame
              inner_side_by_side (updates u) sl1 sl2 o r1 Hsl E1)
    as (r2 & E2 & _ & _ & Hc).
  rewrite E2. cbn. intros [= <- <-] Hk. eexists. split; [reflexivity|].
  destruct (Hk _ eq_refl) as [K1 K2]. split; [exact K1|]. split; [exact K2|].
  intros [j k]. cbn [fst snd]. unfold shape_at. cbn [slides with_slides].
  destruct (decide (Z.to_nat i = j)) as [<-|Hne].
  - rewrite !list_lookup_insert_eq by (eapply lookup_lt_Some; eassumption).
    rewrite L1, L2. apply Hc.
  - right. now rewrite !list_lookup_insert_ne.
Qed.

Lemma batch_side_by_side us p1 p2 out t1 :
  document_frame p1 = document_frame p2 ->
  apply_updates p1 us = (out, Ok t1) ->
  exists t2,
    apply_updates p2 us = (out, Ok t2)
    /\ document_frame t1 = document_frame p1 /\ document_frame t2 = document_frame p2
    /\ forall j k,
         shape_at t1 j k = shape_at t2 j k
         \/ (shape_at t1 j k = shape_at p1 j k /\ shape_at t2 j k = shape_at p2 j k).
Proof.
  intros Hfr E.
  destruct (for_each_side_by_side apply_slide_update
              (fun p (c : nat * nat) => shape_at p c.1 c.2) document_frame
              outer_side_by_side us p1 p2 out t1 Hfr E)
    as (t2 & E2 & F1 & F2 & Hc).
  exists t2. repeat split; try assumption.
  intros j k. apply (Hc (j, k)).
Qed.

(** A document is its frame and its shapes. *)
Lemma document_ext p q :
  document_frame p = document_frame q ->
  (forall j k, shape_at p j k = shape_at q j k) -> p = q.
Proof.
  destruct p as [m sls], q as [m' sls']. unfold document_frame, shape_at. cbn.
  intros H Hc. injection H as -> Hs. f_equal.
  revert sls' Hs Hc. induction sls as [|a l IH]; intros [|b l'] Hs Hc; try discriminate;
    [reflexivity|].
  cbn in Hs. injection Hs as Hn Hsh Hl. f_equal.
  - destruct a as [sa na], b as [sb nb]. cbn in *. subst nb. f_equal.
    apply list_eq. intros k. apply (Hc 0%nat k).
  - apply IH; [exact Hl|]. intros j k. apply (Hc (S j) k).
Qed.

(** *** Shapes no update reaches *)

Lemma inner_step_unreached sl0 k sh s pu s' :
  slide_frame s = slide_frame sl0 /\ shapes s !! k = Some sh ->
  (forall wanted sh0, placeholder_idx pu = Some wanted ->
     find_shape wanted 0 (shapes sl0) <> Ok (Some (k, sh0))) ->
  snd (apply_placeholder_update s pu) = Ok s' ->
  slide_frame s' = slide_frame sl0 /\ shapes s' !! k = Some sh.
Proof.
  intros [Hfr Hk] Hun E.
  destruct (apply_placeholder_update s pu) as [o r] eqn:Ex. cbn in E. subst r.
  split; [rewrite <- Hfr; eapply apply_placeholder_update_keeps, Ex|].
  revert Ex. unfold apply_placeholder_update.
  destruct (placeholder_idx pu) as [wanted|]; [|now intros [= _ <-]].
  destruct (new_text pu) as [t|]; [|now intros [= _ <-]].
  injection Hfr as _ Hs.
  pose proof (find_shape_frame wanted _ _ 0%nat Hs) as Hfind.
  destruct (find_shape wanted 0 (shapes s)) as [[[i shi]|]|e] eqn:F; cbn [bind];
    [|now intros [= _ <-]|discriminate].
  destruct (assign t (new_font_size pu) shi) as [sh'|e]; cbn; [|discriminate].
  intros [= _ <-]. cbn [shapes with_shapes].
  rewrite list_lookup_insert_ne; [exact Hk|]. intros ->.
  destruct (find_shape wanted 0 (shapes sl0)) as [[[i2 sh2]|]|e2] eqn:F0;
    try contradiction.
  destruct Hfind as [<- _]. now apply (Hun wanted sh2).
Qed.

Lemma outer_step_unreached prs j k sl sh p u p' :
  slides prs !! j = Some sl ->
  document_frame p = document_frame prs /\ shape_at p j k = Some sh ->
  (slide_index u = Some (Z.of_nat j) ->
   Forall (fun pu => forall wanted sh0, placeholder_idx pu = Some wanted ->
                       find_shape wanted 0 (shapes sl) <> Ok (Some (k, sh0))) (updates u)) ->
  snd (apply_slide_update p u) = Ok p' ->
  document_frame p' = document_frame prs /\ shape_at p' j k = Some sh.
Proof.
  intros Hsl [Hfr Hk] Hun E.
  destruct (apply_slide_update p u) as [o r] eqn:Ex. cbn in E. subst r.
  split; [rewrite <- Hfr; eapply apply_slide_update_keeps, Ex|].
  revert Ex. unfold apply_slide_update.
  destruct (slide_index u) as [i|] eqn:Ei; [|now intros [= _ <-]].
  destruct (Z.ltb_spec i 0) as [?|Hlo]; cbn [orb]; [now intros [= _ <-]|].
  destruct (Z.geb_spec i (len (slides p))) as [?|Hhi]; [now intros [= _ <-]|].
  destruct (getitem_lookup (slides p) i) as (slp & L & ->); [lia|]. cbn [bind].
  destruct (for_each apply_placeholder_update (updates u) slp) as [o' [t|e]] eqn:El;
    cbn; [|discriminate].
  intros [= _ <-]. unfold shape_at in *. cbn [slides with_slides].
  destruct (decide (Z.to_nat i = j)) as [Hij|Hne];
    [|now rewrite list_lookup_insert_ne].
  assert (i = Z.of_nat j) as -> by lia. rewrite Nat2Z.id in *.
  rewrite L in Hk. injection Hfr as _ Hs.
  destruct (map_lookup_same slide_frame _ _ _ _ Hs L) as (sl' & Hsl' & Hf).
  rewrite Hsl in Hsl'. injection Hsl' as <-.
  rewrite list_lookup_insert_eq by (eapply lookup_lt_Some; eassumption).
  apply (for_each_inv apply_placeholder_update
           (fun s => slide_frame s = slide_frame sl /\ shapes s !! k = Some sh)
           (fun pu => forall wanted sh0, placeholder_idx pu = Some wanted ->
                        find_shape wanted 0 (shapes sl) <> Ok (Some (k, sh0))))
    with (xs := updates u) (s := slp).
  - intros s x s'. apply inner_step_unreached.
  - now apply Hun.
  - now split.
  - now rewrite El.
Qed.

(** X16: in the document that is saved, a shape that no inner update
    reaches is as it was. An inner update reaches the shape at position
    [k] of slide [j] only if its instruction has [slide_index = j] and
    [k] is the first position on that slide whose placeholder has the
    index it names; so shapes behind another one with the same index and
    slides that no instruction names stay as they are. *)
Theorem unreached_shape_is_unchanged
    (prs prs' : presentation) (us : list slide_update) (j k : nat)
    (sl : slide) (sh : shape) :
  snd (apply_updates prs us) = Ok prs' ->
  slides prs !! j = Some sl ->
  shapes sl !! k = Some sh ->
  (forall u pu wanted sh0,
     In u us -> slide_index u = Some (Z.of_nat j) ->
     In pu (updates u) -> placeholder_idx pu = Some wanted ->
     find_shape wanted 0 (shapes sl) <> Ok (Some (k, sh0))) ->
  shape_at prs' j k = Some sh.
Proof.
  intros E Hsl Hk Hun.
  apply (for_each_inv apply_slide_update
           (fun p => document_frame p = document_frame prs /\ shape_at p j k = Some sh)
           (fun u => slide_index u = Some (Z.of_nat j) ->
                     Forall (fun pu => forall wanted sh0, placeholder_idx pu = Some wanted ->
                                         find_shape wanted 0 (shapes sl) <> Ok (Some (k, sh0)))
                       (updates u)))
    with (xs := us) (s := prs) (s' := prs').
  - intros p u p'. apply (outer_step_unreached prs j k sl sh p u p' Hsl).
  - apply List.Forall_forall. intros u Hu Hi. apply List.Forall_forall.
    intros pu Hpu wanted sh0. now apply (Hun u pu).
  - split; [reflexivity|]. unfold shape_at. now rewrite Hsl.
  - exact E.
Qed.

Lemma unreached_shape_is_unchanged_witness :
  shape_at updated_deck 0 0 = Some (placeholder_shape 0 1).
Proof.
  apply (unreached_shape_is_unchanged one_slide_deck updated_deck batch 0 0
           {| shapes := [placeholder_shape 0 1; placeholder_shape 1 7];
              notes_text := None |}).
  - vm_compute. reflexivity.
  - reflexivity.
  - reflexivity.
  - intros u pu wanted sh0 Hu Hi Hpu Hw.
    cbn in Hu. destruct Hu as [<-|[<-|[<-|[]]]]; cbn in Hi; try discriminate.
    cbn in Hpu. destruct Hpu as [<-|[<-|[<-|[]]]]; cbn in Hw; try discriminate;
      injection Hw as <-; vm_compute; discriminate.
Defined.

(** *** The last write *)



Lemma outer_loop_keeps us : forall prs prs',
  snd (apply_updates prs us) = Ok prs' -> document_frame prs' = document_frame prs.
Proof.
  intros prs prs'.
  apply (for_each_inv apply_slide_update
           (fun p => document_frame p = document_frame prs) (fun _ => True)).
  - intros s x s' Hs _ E. destruct (apply_slide_update s x) as [o r] eqn:Ex.
    cbn in E. subst r. rewrite <- Hs. eapply apply_slide_update_keeps, Ex.
  - apply List.Forall_forall. auto.
  - reflexivity.
Qed.



(** *** The batch as a whole *)

Lemma frame_projections p q :
  document_frame p = document_frame q ->
  slide_masters p = slide_masters q
  /\ List.map notes_text (slides p) = List.map notes_text (slides q)
  /\ List.map (fun sl => List.map name (shapes sl)) (slides p)
     = List.map (fun sl => List.map name (shapes sl)) (slides q)
  /\ List.map (fun sl => List.map placeholder (shapes sl)) (slides p)
     = List.map (fun sl => List.map placeholder (shapes sl)) (slides q).
Proof.
  unfold document_frame. intros H. injection H as Hm Hs. split; [exact Hm|].
  assert (Hn : forall sl, notes_text sl = fst (slide_frame sl)) by reflexivity.
  assert (Hna : forall sl, List.map name (shapes sl)
                           = List.map fst (snd (slide_frame sl)))
    by (intros sl; unfold slide_frame; cbn; now rewrite List.map_map).
  assert (Hpl : forall sl, List.map placeholder (shapes sl)
                           = List.map snd (snd (slide_frame sl)))
    by (intros sl; unfold slide_frame; cbn; now rewrite List.map_map).
  repeat split.
  - rewrite !(List.map_ext _ _ Hn), <- !(List.map_map slide_frame fst). now rewrite Hs.
  - rewrite !(List.map_ext _ _ Hna),
      <- !(List.map_map slide_frame (fun fr => List.map fst (snd fr))).
    now rewrite Hs.
  - rewrite !(List.map_ext _ _ Hpl),
      <- !(List.map_map slide_frame (fun fr => List.map snd (snd fr))).
    now rewrite Hs.
Qed.

Lemma saved_of_run prs can_save us out prs' :
  apply_updates prs us = (out, Ok prs') ->
  update_powerpoint_file (Ok prs) can_save us
  = if can_save prs' then (out, {| success := true; saved := Some prs' |})
    else (out ++ [ErrorUpdating (TransportError (lit "save"))],
          {| success := false; saved := None |}).
Proof.
  intros E. unfold update_powerpoint_file. cbn [bind app]. rewrite E. cbn [bind].
  destruct (can_save prs'); cbn; rewrite ?app_nil_r; reflexivity.
Qed.

(** What a call that saves has run. *)
Lemma run_of_saved prs can_save us prs' :
  saved (snd (update_powerpoint_file (Ok prs) can_save us)) = Some prs' ->
  exists out, apply_updates prs us = (out, Ok prs') /\ can_save prs' = true.
Proof.
  destruct (apply_updates prs us) as [out [p|e]] eqn:E.
  - rewrite (saved_of_run _ _ _ _ _ E). destruct (can_save p) eqn:S; [|discriminate].
    intros [= <-]. now exists out.
  - unfold update_powerpoint_file. cbn [bind app]. rewrite E. discriminate.
Qed.

(** X15: the document that a call saves has the masters, the number of
    slides, the notes and, slide by slide and shape by shape, the names
    and the placeholder formats of the document that was opened: only
    texts and font sizes change. *)
Theorem update_keeps_structure
    (prs prs' : presentation) (can_save : presentation -> bool) (us : list slide_update) :
  saved (snd (update_powerpoint_file (Ok prs) can_save us)) = Some prs' ->
  slide_masters prs' = slide_masters prs
  /\ length (slides prs') = length (slides prs)
  /\ List.map notes_text (slides prs') = List.map notes_text (slides prs)
  /\ List.map (fun sl => List.map name (shapes sl)) (slides prs')
     = List.map (fun sl => List.map name (shapes sl)) (slides prs)
  /\ List.map (fun sl => List.map placeholder (shapes sl)) (slides prs')
     = List.map (fun sl => List.map placeholder (shapes sl)) (slides prs).
Proof.
  intros H. destruct (run_of_saved _ _ _ _ H) as (out & E & _).
  assert (F : document_frame prs' = document_frame prs)
    by (apply (outer_loop_keeps us); now rewrite E).
  destruct (frame_projections _ _ F) as (Hm & Hn & Hna & Hpl).
  split; [exact Hm|]. split; [|now repeat split].
  apply (f_equal (@length _)) in Hn. now rewrite !length_map in Hn.
Qed.

Lemma update_keeps_structure_witness :
  List.map (fun sl => List.map placeholder (shapes sl)) (slides updated_deck)
  = List.map (fun sl => List.map placeholder (shapes sl)) (slides one_slide_deck).
Proof.
  apply (update_keeps_structure one_slide_deck updated_deck (fun _ => true) batch).
  vm_compute. reflexivity.
Defined.

(** X18: a batch can be run again. If the call succeeded and saved a
    document, the same batch on the saved document prints the same
    warnings and saves the same document once more. *)
Theorem update_is_idempotent
    (prs prs' : presentation) (can_save : presentation -> bool)
    (us : list slide_update) (out : list diag) :
  update_powerpoint_file (Ok prs) can_save us
  = (out, {| success := true; saved := Some prs' |}) ->
  update_powerpoint_file (Ok prs') can_save us
  = (out, {| success := true; saved := Some prs' |}).
Proof.
  intros H.
  assert (Hs : saved (snd (update_powerpoint_file (Ok prs) can_save us)) = Some prs')
    by now rewrite H.
  destruct (run_of_saved _ _ _ _ Hs) as (o & E & Hsave).
  rewrite (saved_of_run _ _ _ _ _ E), Hsave in H. injection H as <-.
  destruct (batch_side_by_side us prs prs o prs' eq_refl E) as (t & Et & F & _).
  rewrite E in Et. injection Et as <-.
  destruct (batch_side_by_side us prs prs' o prs' (eq_sym F) E) as (r2 & E2 & _ & F2 & Hc).
  assert (r2 = prs') as ->.
  { apply document_ext; [exact F2|]. intros j k.
    destruct (Hc j k) as [Hjk|[Hjk Hjk']]; congruence. }
  rewrite (saved_of_run _ _ _ _ _ E2), Hsave. reflexivity.
Qed.

Lemma update_is_idempotent_witness :
  update_powerpoint_file (Ok updated_deck) (fun _ => true) batch
  = ([WarnNoPlaceholder 9; WarnMissingIdxOrText; WarnInvalidSlideIndex 5; WarnNoSlideIndex],
     {| success := true; saved := Some updated_deck |}).
Proof.
  apply (update_is_idempotent one_slide_deck updated_deck (fun _ => true) batch).
  vm_compute. reflexivity.
Defined.

End UpdateSteps.

(** ** Filling the new slide *)

Module FillFacts.
Import Py Eff Pptx Fit AddSlide UpdateView SlideView AddSlideFacts ResolveFacts UpdateSteps
  Samples.

(** *** Lines and joins *)





(** *** Texts as they are stored *)








(** *** Where the placeholders are *)








(** *** Writing through an entry *)








Section WithUnicode.
Context `{U : Unicode} `{C : Cloning}.

(** *** The column loop, once more *)




(** *** Title and subtitle *)



(** *** The body *)



(** *** The slide as a whole *)





Lemma write_plain p s sl :
  Forall (fun sh => font_size sh = None) (shapes sl) ->
  Forall (fun sh => font_size sh = None) (shapes (write p s None sl)).
Proof.
  intros H. unfold write. cbn [shapes with_shapes]. apply Forall_alter; [exact H|].
  reflexivity.
Qed.

(** X20: font sizes are set only for content that was checked and found
    not to fit. On a slide made from a layout, with [check_fit] off, or
    with content that [check_content_fit] accepts, no shape of the filled
    slide carries a font size. *)
Theorem fitting_content_sets_no_font
    (check_fit : bool) (content : str) (comments : option str) (l : slide_layout) :
  check_fit = false \/ fits (check_content_fit_default content) = true ->
  Forall (fun sh => font_size sh = None)
    (shapes (fill_slide check_fit content comments (new_slide_from l))).
Proof.
  intros Hfit.
  assert (Hh : hint check_fit (title (font_size_info check_fit content)) = None
               /\ hint check_fit (subtitle (font_size_info check_fit content)) = None
               /\ hint check_fit (body (font_size_info check_fit content)) = None).
  { unfold hint, font_size_info. destruct check_fit; [|auto].
    destruct Hfit as [Hf | Hf]; [discriminate|now rewrite Hf]. }
  destruct Hh as (H1 & H2 & H3).
  assert (H0 : Forall (fun sh => font_size sh = None) (shapes (new_slide_from l))).
  { unfold new_slide_from. cbn. apply List.Forall_forall. intros sh Hin.
    apply list_elem_of_In, elem_of_lookup_imap_1 in Hin as (k & x & -> & _).
    reflexivity. }
  unfold fill_slide, after_headings. rewrite H1, H2, H3.
  set (phs := find_placeholders 0 _).
  set (st1 := place_title phs None _).
  assert (F1 : Forall (fun sh => font_size sh = None) (shapes (fst st1))).
  { subst st1. unfold place_title. cbn [fst snd].
    destruct (title_placeholders phs); [exact H0|].
    destruct (split newline content); [exact H0|]. now apply write_plain. }
  set (st2 := place_subtitle phs None st1).
  assert (F2 : Forall (fun sh => font_size sh = None) (shapes (fst st2))).
  { subst st2. unfold place_subtitle.
    destruct (subtitle_placeholders phs); [exact F1|].
    destruct (snd st1); [exact F1|].
    destruct (len (strip _) <? 50); [|exact F1]. now apply write_plain. }
  set (c := split_columns (snd st2)).
  assert (F3 : Forall (fun sh => font_size sh = None)
                 (shapes (fst (place_body phs None c (fst st2))))).
  { unfold place_body.
    destruct (content_placeholders phs) as [|p0 [|p1 [|p2 r]]];
      [| |destruct (column_mode c)|]; cbn [fst]; auto using write_plain. }
  destruct (place_body phs None c (fst st2)) as [sl2 b]. cbn [fst] in F3.
  assert (Hc : forall s, shapes (add_comments comments s) = shapes s)
    by (intros s; unfold add_comments; now destruct (truthy comments)).
  rewrite Hc. unfold place_textbox.
  destruct (negb b && _); [|exact F3]. cbn [shapes with_shapes].
  apply Forall_app. split; [exact F3|]. constructor; [reflexivity|constructor].
Qed.


(** *** The call as a whole *)



End WithUnicode.

(** *** Concrete runs *)

Lemma fitting_content_sets_no_font_witness :
  Forall (fun sh => font_size sh = None)
    (shapes (fill_slide (U := ascii_tables) true long_second_line None
               (new_slide_from (C := numbered_names) title_layout))).
Proof.
  apply (fitting_content_sets_no_font (U := ascii_tables) (C := numbered_names) true
           long_second_line None title_layout).
  right. vm_compute. reflexivity.
Defined.


End FillFacts.

(** ** Content without column markers *)

Module VerbatimFacts.
Import Py Eff Pptx Fit AddSlide SlideView AddSlideFacts FillFacts Samples.


Section WithUnicode.
Context `{U : Unicode}.



End WithUnicode.


End VerbatimFacts.
